(** * Storage-App: the Pub/Sub notification handler of [main.py]

    A shallow embedding of [index], [process_file] and
    [insert_into_bigquery], together with the Python values and string
    methods they use, and theorems about the handler's responses and
    effects.

    Layout: Python data, [str] methods, effects, the library and service
    interfaces, the program, a reference instance of the library
    (base64, UTF-8, JSON), then the theorems. *)

From Stdlib Require Import List Bool Arith ZArith NArith Lia String Ascii.
From Stdlib Require Import DecimalString.
From Stdlib Require Import Floats.SpecFloat.
Import ListNotations.

Set Implicit Arguments.

(* ================================================================= *)
(** ** Python data *)

(** A Python [str] is a sequence of Unicode code points; [len] counts
    code points and slicing cuts between them. *)
Definition char := N.
Definition pystr := list char.

(** Python [bytes]. *)
Definition bytes := list Byte.byte.

(** An ASCII literal of the source, as a [pystr]. *)
Definition lit (s : string) : pystr :=
  List.map N_of_ascii (list_ascii_of_string s).

Fixpoint pystr_eqb (a b : pystr) : bool :=
  match a, b with
  | [], [] => true
  | x :: a', y :: b' => N.eqb x y && pystr_eqb a' b'
  | _, _ => false
  end.

(** The values [json.loads] and [request.get_json] produce.  A [dict]
    keeps its keys in insertion order; a [float] is an IEEE 754
    binary64. *)
#[warnings="-register-all"]
Inductive pyval : Type :=
| PyNone
| PyBool (b : bool)
| PyInt (n : Z)
| PyFloat (x : spec_float)
| PyStr (s : pystr)
| PyList (items : list pyval)
| PyDict (items : list (pystr * pyval)).

(** [bool(v)]: the truth value tested by [if] and [not]. *)
Definition truthy (v : pyval) : bool :=
  match v with
  | PyNone => false
  | PyBool b => b
  | PyInt n => negb (Z.eqb n 0)
  | PyFloat (S754_zero _) => false
  | PyFloat _ => true
  | PyStr s => negb (Nat.eqb (List.length s) 0)
  | PyList l => negb (Nat.eqb (List.length l) 0)
  | PyDict d => negb (Nat.eqb (List.length d) 0)
  end.

(** [isinstance(v, dict)]. *)
Definition isinstance_dict (v : pyval) : bool :=
  match v with PyDict _ => true | _ => false end.

(** [type(v).__name__]. *)
Definition type_name (v : pyval) : pystr :=
  lit match v with
      | PyNone => "NoneType"
      | PyBool _ => "bool"
      | PyInt _ => "int"
      | PyFloat _ => "float"
      | PyStr _ => "str"
      | PyList _ => "list"
      | PyDict _ => "dict"
      end.

(** Lookup in the items of a [dict]. *)
Fixpoint assoc (k : pystr) (d : list (pystr * pyval)) : option pyval :=
  match d with
  | [] => None
  | (k', v) :: d' => if pystr_eqb k k' then Some v else assoc k d'
  end.

(** [d[k] = v]: an existing key keeps its place, a new one goes last. *)
Fixpoint dict_set (k : pystr) (v : pyval) (d : list (pystr * pyval))
  : list (pystr * pyval) :=
  match d with
  | [] => [(k, v)]
  | (k', v') :: d' =>
      if pystr_eqb k k' then (k, v) :: d' else (k', v') :: dict_set k v d'
  end.

(** Faults.  An [exn] stands for an instance of a subclass of Python's
    [Exception]; [exn_message] is what [str(e)] and [f"{e}"] give. *)
Record exn : Type := Exn { exn_class : string; exn_message : pystr }.

Inductive result (A : Type) : Type :=
| Returned (a : A)
| Raised (e : exn).
Arguments Returned {A} a.
Arguments Raised {A} e.

(** [k in v] and [v[k]] for a string key [k].  The source evaluates both
    on a [dict] only, behind [isinstance(v, dict)]; there [v[k]] raises
    [KeyError] on a missing key. *)
Definition key_in (k : pystr) (v : pyval) : bool :=
  match v with
  | PyDict d => match assoc k d with Some _ => true | None => false end
  | _ => false
  end.

Definition py_getitem (v : pyval) (k : pystr) : result pyval :=
  match v with
  | PyDict d =>
      match assoc k d with
      | Some x => Returned x
      | None => Raised (Exn "KeyError" (lit "'" ++ k ++ lit "'"))
      end
  | PyStr _ => Raised (Exn "TypeError" (lit "string indices must be integers, not 'str'"))
  | PyList _ =>
      Raised (Exn "TypeError" (lit "list indices must be integers or slices, not str"))
  | _ => Raised (Exn "TypeError"
                   (lit "'" ++ type_name v ++ lit "' object is not subscriptable"))
  end.

(** [v.get(k)]: [dict.get] gives [None] for a missing key; no other type
    of value that JSON produces has an attribute [get]. *)
Definition py_get (v : pyval) (k : pystr) : result pyval :=
  match v with
  | PyDict d => Returned (match assoc k d with Some x => x | None => PyNone end)
  | _ => Raised (Exn "AttributeError"
                   (lit "'" ++ type_name v ++ lit "' object has no attribute 'get'"))
  end.

(* ================================================================= *)
(** ** [str] methods *)

(** [c.isspace()] for one code point: the characters [str.split] and
    [str.strip] treat as whitespace. *)
Definition isspace (c : char) : bool :=
  ((9 <=? c) && (c <=? 13) || (28 <=? c) && (c <=? 32)
   || (c =? 133) || (c =? 160) || (c =? 5760)
   || (8192 <=? c) && (c <=? 8202)
   || (c =? 8232) || (c =? 8233) || (c =? 8239) || (c =? 8287)
   || (c =? 12288))%N.

(** [s.lstrip()], [s.rstrip()] and [s.strip()]. *)
Fixpoint lstrip (s : pystr) : pystr :=
  match s with
  | c :: s' => if isspace c then lstrip s' else s
  | [] => []
  end.

Definition rstrip (s : pystr) : pystr := rev (lstrip (rev s)).

Definition strip (s : pystr) : pystr := rstrip (lstrip s).

(** [s.split()]: the maximal runs of non-whitespace characters, left to
    right.  [cur] is the run being read, last character first. *)
Fixpoint split_from (cur : pystr) (s : pystr) : list pystr :=
  match s with
  | [] => match cur with [] => [] | _ => [rev cur] end
  | c :: s' =>
      if isspace c
      then match cur with
           | [] => split_from [] s'
           | _ => rev cur :: split_from [] s'
           end
      else split_from (c :: cur) s'
  end.

Definition split (s : pystr) : list pystr := split_from [] s.

(** [s[:n]]. *)
Definition slice_to (n : nat) (s : pystr) : pystr := firstn n s.

(** [str(n)] for a natural number. *)
Definition str_of_N (n : N) : pystr := lit (NilZero.string_of_uint (N.to_uint n)).

(* ================================================================= *)
(** ** Effects *)

Inductive level : Type := INFO | WARNING | ERROR.

(** What a request does to the outside, in order: lines on standard
    output, log records, the fetch of an object and the streaming insert
    of rows into a table. *)
Inductive event : Type :=
| Stdout (line : pystr)
| Log (lvl : level) (msg : pystr)
| Download (bucket_name file_name : pyval)
| InsertRows (table_id : pystr) (rows : list pyval).

(** A computation: the events it caused and how it ended. *)
Definition io (A : Type) : Type := (list event * result A)%type.

Definition ret {A} (a : A) : io A := ([], Returned a).

Definition raise {A} (e : exn) : io A := ([], Raised e).

Definition lift {A} (r : result A) : io A := ([], r).

Definition emit (ev : event) : io unit := ([ev], Returned tt).

Definition bind {A B} (m : io A) (k : A -> io B) : io B :=
  match m with
  | (t, Returned a) => let (t', r) := k a in (t ++ t', r)
  | (t, Raised e) => (t, Raised e)
  end.

(** [try: body except Exception as e: handler]. *)
Definition try_except {A} (body : io A) (handler : exn -> io A) : io A :=
  match body with
  | (t, Raised e) => let (t', r) := handler e in (t ++ t', r)
  | done => done
  end.

Declare Scope io_scope.
Delimit Scope io_scope with io.
Notation "x <- m ;; k" := (bind m (fun x => k))
  (at level 100, m at next level, right associativity) : io_scope.
Notation "m ;; k" := (bind m (fun _ => k))
  (at level 100, right associativity) : io_scope.

Definition trace {A} (m : io A) : list event := fst m.
Definition outcome {A} (m : io A) : result A := snd m.

(** The calls that leave the process for the object store or the
    warehouse. *)
Definition is_downstream (ev : event) : bool :=
  match ev with
  | Download _ _ | InsertRows _ _ => true
  | _ => false
  end.

Definition downstream (t : list event) : list event := filter is_downstream t.

Definition is_insert (ev : event) : bool :=
  match ev with InsertRows _ _ => true | _ => false end.

Definition inserts (t : list event) : list event := filter is_insert t.

(* ================================================================= *)
(** ** Interfaces of the library and of the services *)

(** The library functions the handler calls on the message data, and
    [repr], through which f-strings print a value that is not a [str]. *)
Record pylib : Type := {
  b64decode : pyval -> result bytes;          (* base64.b64decode(v)    *)
  decode_utf8 : bytes -> result pystr;        (* b.decode("utf-8")      *)
  json_loads : pystr -> result pyval;         (* json.loads(s)          *)
  repr : pyval -> pystr                       (* repr(v)                *)
}.

(** The environment of one request: the two clients created at start-up,
    the configuration read from the process environment, and the clock.
    [download_as_text b n] is
    [storage_client.bucket(b).blob(n).download_as_text()];
    [insert_rows_json t rows] is [bq_client.insert_rows_json(t, rows)],
    which gives the list of per-row errors. *)
Record services : Type := {
  download_as_text : pyval -> pyval -> result pystr;
  utcnow_isoformat : pystr;          (* datetime.utcnow().isoformat() *)
  project : pystr;                   (* bq_client.project *)
  BQ_DATASET : pystr;
  BQ_TABLE : pystr;
  insert_rows_json : pystr -> list pyval -> result (list pyval)
}.

(** A response of the route: body and status. *)
Definition response : Type := (pystr * Z)%type.

Definition body (r : response) : pystr := fst r.
Definition status (r : response) : Z := snd r.

(* ================================================================= *)
(** ** The program *)

(** The value bound to [metadata] in [process_file] (lines 73-83):
    [now] is the time stamp read at extraction. *)
Definition extract_metadata (file_name : pyval) (now : pystr) (content : pystr)
  : pyval :=
  let word_count := List.length (split content) in
  PyDict
    [ (lit "filename", file_name);
      (lit "upload_timestamp", PyStr now);
      (lit "word_count", PyInt (Z.of_nat word_count));
      (lit "content_snippet",
        PyStr (if Nat.ltb 100 (List.length content)
               then slice_to 100 content else content));
      (lit "tags",
        PyList [PyStr (lit "simulated"); PyStr (lit "ocr"); PyStr (lit "processed")]) ].

Section Program.

Variable py : pylib.
Variable svc : services.

Local Open Scope io_scope.

(** [f"{v}"]: a [str] prints as itself, any other value as its [repr]. *)
Definition fmt (v : pyval) : pystr :=
  match v with PyStr s => s | _ => repr py v end.

Definition print (line : pystr) : io unit := emit (Stdout line).
Definition logger (lvl : level) (msg : pystr) : io unit := emit (Log lvl msg).

Definition table_id : pystr :=
  project svc ++ lit "." ++ BQ_DATASET svc ++ lit "." ++ BQ_TABLE svc.

(** [insert_into_bigquery(row)], lines 94-104. *)
Definition insert_into_bigquery (row : pyval) : io unit :=
  errors <- (emit (InsertRows table_id [row]) ;;
             lift (insert_rows_json svc table_id [row])) ;;
  if truthy (PyList errors) then
    logger ERROR (lit "Encountered errors while inserting rows: "
                    ++ fmt (PyList errors)) ;;
    raise (Exn "Exception" (lit "BigQuery insert failed: " ++ fmt (PyList errors)))
  else
    logger INFO (lit "Successfully inserted row into BigQuery.").

(** [process_file(bucket_name, file_name)], lines 64-92. *)
Definition process_file (bucket_name file_name : pyval) : io unit :=
  try_except
    (content <- (emit (Download bucket_name file_name) ;;
                 lift (download_as_text svc bucket_name file_name)) ;;
     let metadata := extract_metadata file_name (utcnow_isoformat svc) content in
     logger INFO (lit "Extracted metadata: " ++ fmt metadata) ;;
     insert_into_bigquery metadata)
    (fun e =>
       logger ERROR (lit "Failed to process file " ++ fmt file_name
                       ++ lit ": " ++ exn_message e) ;;
       raise e).

(** Lines 42-44: the message data decoded to the storage event. *)
Definition decode_event (data : pyval) : result pyval :=
  match b64decode py data with
  | Raised e => Raised e
  | Returned raw =>
      match decode_utf8 py raw with
      | Raised e => Raised e
      | Returned text => json_loads py (strip text)
      end
  end.

(** The body of the [try] of [index], lines 42-56.  It gives
    [Some r] when a [return r] inside it ran and [None] when control
    reached its end. *)
Definition index_try (pubsub_message : pyval) : io (option response) :=
  data_field <- lift (py_getitem pubsub_message (lit "data")) ;;
  event_data <- lift (decode_event data_field) ;;
  bucket_name <- lift (py_get event_data (lit "bucket")) ;;
  file_name <- lift (py_get event_data (lit "name")) ;;
  if negb (truthy bucket_name) || negb (truthy file_name) then
    logger WARNING (lit "Bucket or filename missing in event data.") ;;
    ret (Some (lit "OK", 200%Z))
  else
    logger INFO (lit "Processing file: " ++ fmt file_name
                   ++ lit " from bucket: " ++ fmt bucket_name) ;;
    process_file bucket_name file_name ;;
    ret None.

(** The [except Exception as e] clause of [index], lines 58-60. *)
Definition index_except (e : exn) : io (option response) :=
  logger ERROR (lit "Error processing message: " ++ exn_message e) ;;
  ret (Some (lit "Error: " ++ exn_message e, 500%Z)).

(** [index()], lines 24-62, on the value [request.get_json()] gave. *)
Definition index (envelope : pyval) : io response :=
  if negb (truthy envelope) then
    let msg := lit "no Pub/Sub message received" in
    print (lit "error: " ++ msg) ;;
    ret (lit "Bad Request: " ++ msg, 400%Z)
  else if negb (isinstance_dict envelope) || negb (key_in (lit "message") envelope) then
    let msg := lit "invalid Pub/Sub message format" in
    print (lit "error: " ++ msg) ;;
    ret (lit "Bad Request: " ++ msg, 400%Z)
  else
    pubsub_message <- lift (py_getitem envelope (lit "message")) ;;
    returned <-
      (if isinstance_dict pubsub_message && key_in (lit "data") pubsub_message then
         try_except (index_try pubsub_message) index_except
       else ret None) ;;
    match returned with
    | Some r => ret r
    | None => ret (lit "OK", 200%Z)
    end.

End Program.

(* ================================================================= *)
(** ** A reference instance of the library *)

Definition byte_of_N (n : N) : Byte.byte :=
  match Byte.of_N (n mod 256) with Some b => b | None => Byte.x00 end.

(** [s.encode("ascii")] for an ASCII literal. *)
Definition ascii_bytes (s : string) : bytes := List.map byte_of_N (lit s).

(** *** [base64]: the standard alphabet, decoding as [binascii.a2b_base64]
    does outside strict mode. *)
Module Base64.

Definition pad : N := 61.   (* '=' *)

(** The value of a character of the alphabet. *)
Definition digit_of (c : N) : option N :=
  (if (65 <=? c) && (c <=? 90) then Some (c - 65)
   else if (97 <=? c) && (c <=? 122) then Some (c - 71)
   else if (48 <=? c) && (c <=? 57) then Some (c + 4)
   else if c =? 43 then Some 62
   else if c =? 47 then Some 63
   else None)%N.

(** The character of a value below 64. *)
Definition char_of (d : N) : N :=
  (if d <? 26 then d + 65
   else if d <? 52 then d + 71
   else if d <? 62 then d - 4
   else if d =? 62 then 43 else 47)%N.

(** The loop over the input: [quad_pos] is the position in the current
    group of four, [leftchar] the bits not yet written, [pads] the
    padding characters seen since the last digit, [out] the bytes
    written, last first.  Characters outside the alphabet are skipped;
    a padding sequence that completes a group ends the input. *)
Fixpoint a2b_loop (s : list N) (quad_pos leftchar pads : N) (out : list N)
  : result bytes :=
  match s with
  | [] =>
      if (quad_pos =? 0)%N then Returned (List.map byte_of_N (rev out))
      else if (quad_pos =? 1)%N then
        Raised (Exn "binascii.Error"
                  (lit "Invalid base64-encoded string: number of data characters ("
                     ++ str_of_N (N.of_nat (List.length out) / 3 * 4 + 1)
                     ++ lit ") cannot be 1 more than a multiple of 4"))
      else Raised (Exn "binascii.Error" (lit "Incorrect padding"))
  | c :: s' =>
      if (c =? pad)%N then
        if (2 <=? quad_pos)%N then
          if (4 <=? quad_pos + (pads + 1))%N
          then Returned (List.map byte_of_N (rev out))
          else a2b_loop s' quad_pos leftchar (pads + 1)%N out
        else a2b_loop s' quad_pos leftchar pads out
      else
        match digit_of c with
        | None => a2b_loop s' quad_pos leftchar pads out
        | Some d =>
            (if quad_pos =? 0 then a2b_loop s' 1 d 0 out
             else if quad_pos =? 1 then
               a2b_loop s' 2 (N.land d 15) 0
                 (N.lor (N.shiftl leftchar 2) (N.shiftr d 4) :: out)
             else if quad_pos =? 2 then
               a2b_loop s' 3 (N.land d 3) 0
                 (N.lor (N.shiftl leftchar 4) (N.shiftr d 2) :: out)
             else
               a2b_loop s' 0 0 0 (N.lor (N.shiftl leftchar 6) d :: out))%N
        end
  end.

Definition a2b_base64 (data : list N) : result bytes := a2b_loop data 0 0 0 [].

(** [base64.b64decode(v)]: a [str] must be ASCII; a value that is
    neither [str] nor bytes-like is a [TypeError]. *)
Definition b64decode (v : pyval) : result bytes :=
  match v with
  | PyStr s =>
      if forallb (fun c => c <? 128)%N s then a2b_base64 s
      else Raised (Exn "ValueError"
                     (lit "string argument should contain only ASCII characters"))
  | _ => Raised (Exn "TypeError"
                   (lit "argument should be a bytes-like object or ASCII string, not '"
                      ++ type_name v ++ lit "'"))
  end.

(** [base64.b64encode(b).decode("ascii")]. *)
Fixpoint encode (b : list N) : pystr :=
  match b with
  | [] => []
  | [x] =>
      [char_of (N.shiftr x 2); char_of (N.shiftl (N.land x 3) 4); pad; pad]
  | [x; y] =>
      [char_of (N.shiftr x 2);
       char_of (N.lor (N.shiftl (N.land x 3) 4) (N.shiftr y 4));
       char_of (N.shiftl (N.land y 15) 2); pad]
  | x :: y :: z :: b' =>
      char_of (N.shiftr x 2)
      :: char_of (N.lor (N.shiftl (N.land x 3) 4) (N.shiftr y 4))
      :: char_of (N.lor (N.shiftl (N.land y 15) 2) (N.shiftr z 6))
      :: char_of (N.land z 63)
      :: encode b'
  end.

Definition b64encode (b : bytes) : pystr := encode (List.map Byte.to_N b).

End Base64.

(** *** UTF-8: [bytes.decode("utf-8")] with the default strict error
    handling, and [str.encode("utf-8")]. *)
Module Utf8.

Definition hex_digit (d : N) : N := (if d <? 10 then d + 48 else d + 87)%N.

(** ["%02x"] of a byte. *)
Definition hex2 (b : N) : pystr := [hex_digit (b / 16); hex_digit (b mod 16)].

(** [UnicodeDecodeError]: the undecodable bytes are the [n] bytes from
    position [pos], the first of them [b0]. *)
Definition decode_error (b0 pos n : N) (reason : string) : exn :=
  Exn "UnicodeDecodeError"
    (if (n =? 1)%N
     then lit "'utf-8' codec can't decode byte 0x" ++ hex2 b0
            ++ lit " in position " ++ str_of_N pos ++ lit ": " ++ lit reason
     else lit "'utf-8' codec can't decode bytes in position " ++ str_of_N pos
            ++ lit "-" ++ str_of_N (pos + n - 1) ++ lit ": " ++ lit reason).

Definition within (lo hi b : N) : bool := ((lo <=? b) && (b <=? hi))%N.

Definition continuation (b : N) : bool := within 128 191 b.

(** The second byte allowed after the lead byte [b0] of a sequence of
    three or four bytes: no overlong form, no surrogate, nothing above
    U+10FFFF. *)
Definition second (b0 b1 : N) : bool :=
  (if b0 =? 224 then within 160 191 b1
   else if b0 =? 237 then within 128 159 b1
   else if b0 =? 240 then within 144 191 b1
   else if b0 =? 244 then within 128 143 b1
   else continuation b1)%N.

Definition low6 (b : N) : N := N.land b 63.

Fixpoint decode_from (bs : list N) (pos : N) (out : pystr) : result pystr :=
  match bs with
  | [] => Returned (rev out)
  | b0 :: r0 =>
      let bad := fun n => Raised (decode_error b0 pos n "invalid continuation byte") in
      let short := fun n => Raised (decode_error b0 pos n "unexpected end of data") in
      if (b0 <? 128)%N then decode_from r0 (pos + 1)%N (b0 :: out)
      else if (b0 <? 194)%N || (244 <? b0)%N then
        Raised (decode_error b0 pos 1 "invalid start byte")
      else if (b0 <? 224)%N then
        match r0 with
        | [] => short 1%N
        | b1 :: r1 =>
            if continuation b1
            then decode_from r1 (pos + 2)%N
                   (N.lor (N.shiftl (N.land b0 31) 6) (low6 b1) :: out)
            else bad 1%N
        end
      else if (b0 <? 240)%N then
        match r0 with
        | [] => short 1%N
        | b1 :: r1 =>
            if negb (second b0 b1) then bad 1%N
            else
              match r1 with
              | [] => short 2%N
              | b2 :: r2 =>
                  if continuation b2
                  then decode_from r2 (pos + 3)%N
                         (N.lor (N.shiftl (N.land b0 15) 12)
                            (N.lor (N.shiftl (low6 b1) 6) (low6 b2)) :: out)
                  else bad 2%N
              end
        end
      else
        match r0 with
        | [] => short 1%N
        | b1 :: r1 =>
            if negb (second b0 b1) then bad 1%N
            else
              match r1 with
              | [] => short 2%N
              | b2 :: r2 =>
                  if negb (continuation b2) then bad 2%N
                  else
                    match r2 with
                    | [] => short 3%N
                    | b3 :: r3 =>
                        if continuation b3
                        then decode_from r3 (pos + 4)%N
                               (N.lor (N.shiftl (N.land b0 7) 18)
                                  (N.lor (N.shiftl (low6 b1) 12)
                                     (N.lor (N.shiftl (low6 b2) 6) (low6 b3)))
                                :: out)
                        else bad 3%N
                    end
              end
        end
  end.

Definition decode (b : bytes) : result pystr :=
  decode_from (List.map Byte.to_N b) 0 [].

(** The bytes of one code point. *)
Definition encode_char (c : char) : list N :=
  (if c <? 128 then [c]
   else if c <? 2048 then [N.lor 192 (N.shiftr c 6); N.lor 128 (low6 c)]
   else if c <? 65536 then
     [N.lor 224 (N.shiftr c 12); N.lor 128 (low6 (N.shiftr c 6)); N.lor 128 (low6 c)]
   else
     [N.lor 240 (N.shiftr c 18); N.lor 128 (low6 (N.shiftr c 12));
      N.lor 128 (low6 (N.shiftr c 6)); N.lor 128 (low6 c)])%N.

(** [s.encode("utf-8")] for a string without surrogates. *)
Definition encode (s : pystr) : bytes :=
  List.map byte_of_N (flat_map encode_char s).

End Utf8.

(** *** [json.loads] on a [str], with the default decoder. *)
Module Json.

(** What scanning from an index gives: a value, the input left and its
    index, or a fault. *)
Inductive scanned (A : Type) : Type :=
| Scanned (a : A) (rest : pystr) (idx : N)
| Failed (e : exn).
Arguments Scanned {A} a rest idx.
Arguments Failed {A} e.

Definition is_ws (c : char) : bool :=
  ((c =? 32) || (c =? 9) || (c =? 10) || (c =? 13))%N.

Fixpoint skip_ws (s : pystr) (idx : N) : pystr * N :=
  match s with
  | c :: s' => if is_ws c then skip_ws s' (idx + 1)%N else (s, idx)
  | [] => (s, idx)
  end.

Definition is_digit (c : char) : bool := ((48 <=? c) && (c <=? 57))%N.

Definition hex_value (c : char) : option N :=
  (if is_digit c then Some (c - 48)
   else if (97 <=? c) && (c <=? 102) then Some (c - 87)
   else if (65 <=? c) && (c <=? 70) then Some (c - 55)
   else None)%N.

Definition hex4 (a b c d : char) : option N :=
  match hex_value a, hex_value b, hex_value c, hex_value d with
  | Some x, Some y, Some z, Some w => Some (((x * 16 + y) * 16 + z) * 16 + w)%N
  | _, _, _, _ => None
  end.

Definition unescape (c : char) : option char :=
  (if (c =? 34) || (c =? 92) || (c =? 47) then Some c
   else if c =? 98 then Some 8
   else if c =? 102 then Some 12
   else if c =? 110 then Some 10
   else if c =? 114 then Some 13
   else if c =? 116 then Some 9
   else None)%N.

Definition high_surrogate (c : N) : bool := ((55296 <=? c) && (c <=? 56319))%N.
Definition low_surrogate (c : N) : bool := ((56320 <=? c) && (c <=? 57343))%N.
Definition join_surrogates (hi lo : N) : N :=
  (65536 + N.lor (N.shiftl (N.land hi 1023) 10) (N.land lo 1023))%N.

Fixpoint starts_with (p s : pystr) : option pystr :=
  match p, s with
  | [], _ => Some s
  | x :: p', y :: s' => if (x =? y)%N then starts_with p' s' else None
  | _ :: _, [] => None
  end.

(** The longest prefix of digits, and the rest. *)
Fixpoint digits (s : pystr) : pystr * pystr :=
  match s with
  | c :: s' => if is_digit c then let (d, r) := digits s' in (c :: d, r) else ([], s)
  | [] => ([], [])
  end.

Definition N_of_digits (d : pystr) : N :=
  fold_left (fun acc c => acc * 10 + (c - 48))%N d 0%N.

(** [float(...)] of the decimal [m * 10^e10], signed: the nearest
    binary64, ties to even. *)
Definition float_of_decimal (neg : bool) (m : N) (e10 : Z) : spec_float :=
  match m with
  | N0 => S754_zero neg
  | Npos p =>
      if (0 <=? e10)%Z then
        match (Zpos p * 10 ^ e10)%Z with
        | Zpos n => binary_round 53 1024 neg n 0
        | _ => S754_nan
        end
      else
        let d := (10 ^ (- e10))%Z in
        let shift := Z.max 0 (Z.log2 d + 64 - Z.log2 (Zpos p)) in
        let n := (Zpos p * 2 ^ shift)%Z in
        let r := (n mod d)%Z in
        binary_round_aux 53 1024 neg (n / d)%Z (- shift)%Z
          (if (r =? 0)%Z then loc_Exact else loc_Inexact (Z.compare (2 * r) d))
  end.

Section Decoder.

(** The document being decoded, for the line and column of a fault. *)
Variable doc : pystr.

Fixpoint line_col (s : pystr) (line col : N) : N * N :=
  match s with
  | [] => (line, col)
  | c :: s' => if (c =? 10)%N then line_col s' (line + 1)%N 1%N
               else line_col s' line (col + 1)%N
  end.

(** [JSONDecodeError(msg, doc, pos)]. *)
Definition errmsg (msg : string) (pos : N) : exn :=
  let (line, col) := line_col (firstn (N.to_nat pos) doc) 1 1 in
  Exn "json.decoder.JSONDecodeError"
    (lit msg ++ lit ": line " ++ str_of_N line ++ lit " column " ++ str_of_N col
       ++ lit " (char " ++ str_of_N pos ++ lit ")").

(** The characters of a string after its opening quote at index
    [begin]; [s] starts at [idx], [out] is what was read, last
    first.  A [\u] escape needs its four digits and one more
    character after them; a low surrogate is joined to the high one
    before it when a character follows it too. *)
Fixpoint scanstring (s : pystr) (idx begin : N) (out : pystr) : scanned pystr :=
  match s with
  | [] => Failed (errmsg "Unterminated string starting at" begin)
  | c :: s1 =>
      if (c =? 34)%N then Scanned (rev out) s1 (idx + 1)%N
      else if (c =? 92)%N then
        match s1 with
        | [] => Failed (errmsg "Unterminated string starting at" begin)
        | e :: s2 =>
            if (e =? 117)%N then
              match s2 with
              | h1 :: h2 :: h3 :: h4 :: (_ :: _) as s6 =>
                  match hex4 h1 h2 h3 h4 with
                  | None => Failed (errmsg "Invalid \uXXXX escape" (idx + 1))
                  | Some c1 =>
                      let alone := scanstring s6 (idx + 6)%N begin (c1 :: out) in
                      if high_surrogate c1 then
                        match s6 with
                        | b :: u :: g1 :: g2 :: g3 :: g4 :: (_ :: _) as s12 =>
                            if ((b =? 92) && (u =? 117))%N then
                              match hex4 g1 g2 g3 g4 with
                              | None =>
                                  Failed (errmsg "Invalid \uXXXX escape" (idx + 7))
                              | Some c2 =>
                                  if low_surrogate c2
                                  then scanstring s12 (idx + 12)%N begin
                                         (join_surrogates c1 c2 :: out)
                                  else alone
                              end
                            else alone
                        | _ => alone
                        end
                      else alone
                  end
              | _ => Failed (errmsg "Invalid \uXXXX escape" (idx + 1))
              end
            else
              match unescape e with
              | Some c' => scanstring s2 (idx + 2)%N begin (c' :: out)
              | None => Failed (errmsg "Invalid \escape" idx)
              end
        end
      else if (c <=? 31)%N then Failed (errmsg "Invalid control character at" idx)
      else scanstring s1 (idx + 1)%N begin (c :: out)
  end.

(** [int(d)] for a run of digits [d], negated when [neg]. *)
Definition int_of_digits (neg : bool) (d : pystr) : result pyval :=
  let n := List.length d in
  if Nat.ltb 4300 n then
    Raised (Exn "ValueError"
              (lit "Exceeds the limit (4300 digits) for integer string conversion: value has "
                 ++ str_of_N (N.of_nat n)
                 ++ lit " digits; use sys.set_int_max_str_digits() to increase the limit"))
  else
    let v := Z.of_N (N_of_digits d) in
    Returned (PyInt (if neg then (- v)%Z else v)).

(** A number at the head of [s]: an optional minus sign, then a zero
    or a run of digits that does not start with zero, then optionally
    a point and digits, then optionally [e] or [E], a sign and
    digits.  It is an [int] without fraction and exponent and a
    [float] with either. *)
Definition match_number (s : pystr) (idx : N) : scanned pyval :=
  let (neg, s0) := match s with
                   | 45%N :: s' => (true, s')
                   | _ => (false, s)
                   end in
  let (int_part, s1) :=
    match s0 with
    | 48%N :: s' => ([48%N], s')
    | _ => digits s0
    end in
  match int_part with
  | [] => Failed (errmsg "Expecting value" idx)
  | _ =>
      let (frac, s2) :=
        match s1 with
        | 46%N :: s' =>
            match digits s' with
            | ([], _) => ([], s1)
            | (d, r) => (d, r)
            end
        | _ => ([], s1)
        end in
      let '(has_exp, exp, s3) :=
        match s2 with
        | e :: s' =>
            if ((e =? 101) || (e =? 69))%N then
              let (eneg, s'') := match s' with
                                 | 45%N :: t => (true, t)
                                 | 43%N :: t => (false, t)
                                 | _ => (false, s')
                                 end in
              match digits s'' with
              | ([], _) => (false, 0%Z, s2)
              | (d, r) =>
                  let v := Z.of_N (N_of_digits d) in
                  (true, if eneg then (- v)%Z else v, r)
              end
            else (false, 0%Z, s2)
        | [] => (false, 0%Z, s2)
        end in
      let idx' := (idx + N.of_nat (List.length s - List.length s3))%N in
      match frac, has_exp with
      | [], false =>
          match int_of_digits neg int_part with
          | Returned v => Scanned v s3 idx'
          | Raised e => Failed e
          end
      | _, _ =>
          Scanned
            (PyFloat (float_of_decimal neg (N_of_digits (int_part ++ frac))
                        (exp - Z.of_nat (List.length frac))))
            s3 idx'
      end
  end.

(** A named constant [name] at the head of [s]. *)
Definition constant (name : string) (v : pyval) (s : pystr) (idx : N)
  : option (scanned pyval) :=
  match starts_with (lit name) s with
  | Some rest => Some (Scanned v rest (idx + N.of_nat (String.length name))%N)
  | None => None
  end.

(** One JSON value at the head of [s]; [members] and [elements] read
    what follows in an object and in an array that are not empty.
    A value that contains another has read a character before it
    reads the inner one, so [fuel] above twice the length of the
    document is never used up.  CPython gives up with a
    [RecursionError] on nesting deeper than what is left of the
    interpreter's recursion limit, which depends on the state of the
    interpreter; this reference has no such limit. *)
Fixpoint scan_once (fuel : nat) (s : pystr) (idx : N) : scanned pyval :=
  match fuel with
  | O => Failed (Exn "RecursionError" (lit "maximum recursion depth exceeded"))
  | S fuel' =>
      match s with
      | [] => Failed (errmsg "Expecting value" idx)
      | c :: s1 =>
          if (c =? 34)%N then
            match scanstring s1 (idx + 1)%N idx [] with
            | Scanned str rest i => Scanned (PyStr str) rest i
            | Failed e => Failed e
            end
          else if (c =? 123)%N then
            let (s2, i2) := skip_ws s1 (idx + 1)%N in
            match s2 with
            | 125%N :: s3 => Scanned (PyDict []) s3 (i2 + 1)%N
            | _ => members fuel' s2 i2 []
            end
          else if (c =? 91)%N then
            let (s2, i2) := skip_ws s1 (idx + 1)%N in
            match s2 with
            | 93%N :: s3 => Scanned (PyList []) s3 (i2 + 1)%N
            | _ => elements fuel' s2 i2 []
            end
          else
            let named :=
              if (c =? 110)%N then constant "null" PyNone s idx
              else if (c =? 116)%N then constant "true" (PyBool true) s idx
              else if (c =? 102)%N then constant "false" (PyBool false) s idx
              else if (c =? 78)%N then constant "NaN" (PyFloat S754_nan) s idx
              else if (c =? 73)%N then
                constant "Infinity" (PyFloat (S754_infinity false)) s idx
              else if (c =? 45)%N then
                constant "-Infinity" (PyFloat (S754_infinity true)) s idx
              else None in
            match named with
            | Some r => r
            | None => match_number s idx
            end
      end
  end

with members (fuel : nat) (s : pystr) (idx : N) (acc : list (pystr * pyval))
  : scanned pyval :=
  match fuel with
  | O => Failed (Exn "RecursionError" (lit "maximum recursion depth exceeded"))
  | S fuel' =>
      match s with
      | 34%N :: s1 =>
          match scanstring s1 (idx + 1)%N idx [] with
          | Failed e => Failed e
          | Scanned key s2 i2 =>
              let (s3, i3) := skip_ws s2 i2 in
              match s3 with
              | 58%N :: s4 =>
                  let (s5, i5) := skip_ws s4 (i3 + 1)%N in
                  match scan_once fuel' s5 i5 with
                  | Failed e => Failed e
                  | Scanned v s6 i6 =>
                      let acc' := dict_set key v acc in
                      let (s7, i7) := skip_ws s6 i6 in
                      match s7 with
                      | 125%N :: s8 => Scanned (PyDict acc') s8 (i7 + 1)%N
                      | 44%N :: s8 =>
                          let (s9, i9) := skip_ws s8 (i7 + 1)%N in
                          members fuel' s9 i9 acc'
                      | _ => Failed (errmsg "Expecting ',' delimiter" i7)
                      end
                  end
              | _ => Failed (errmsg "Expecting ':' delimiter" i3)
              end
          end
      | _ =>
          Failed (errmsg "Expecting property name enclosed in double quotes" idx)
      end
  end

with elements (fuel : nat) (s : pystr) (idx : N) (acc : list pyval)
  : scanned pyval :=
  match fuel with
  | O => Failed (Exn "RecursionError" (lit "maximum recursion depth exceeded"))
  | S fuel' =>
      match scan_once fuel' s idx with
      | Failed e => Failed e
      | Scanned v s1 i1 =>
          let (s2, i2) := skip_ws s1 i1 in
          match s2 with
          | 93%N :: s3 => Scanned (PyList (rev (v :: acc))) s3 (i2 + 1)%N
          | 44%N :: s3 =>
              let (s4, i4) := skip_ws s3 (i2 + 1)%N in
              elements fuel' s4 i4 (v :: acc)
          | _ => Failed (errmsg "Expecting ',' delimiter" i2)
          end
      end
  end.

(** [JSONDecoder.decode]: one value between optional whitespace. *)
Definition decode : result pyval :=
  let (s0, i0) := skip_ws doc 0 in
  match scan_once (2 * List.length doc + 2) s0 i0 with
  | Failed e => Raised e
  | Scanned v s1 i1 =>
      match skip_ws s1 i1 with
      | ([], _) => Returned v
      | (_, i2) => Raised (errmsg "Extra data" i2)
      end
  end.

End Decoder.

(** [json.loads(s)] for a [str]. *)
Definition loads (s : pystr) : result pyval :=
  match s with
  | 65279%N :: _ =>
      Raised (errmsg s "Unexpected UTF-8 BOM (decode using utf-8-sig)" 0)
  | _ => decode s
  end.

End Json.

(** The reference library, around a given [repr]. *)
Definition cpython (repr_of : pyval -> pystr) : pylib :=
  {| b64decode := Base64.b64decode;
     decode_utf8 := Utf8.decode;
     json_loads := Json.loads;
     repr := repr_of |}.

(* ================================================================= *)
(** ** Specification-side definitions *)

(** The value of a key of a record, when the record is a [dict] that has
    the key. *)
Definition field (k : string) (row : pyval) : option pyval :=
  match row with
  | PyDict d => assoc (lit k) d
  | _ => None
  end.

(** The number of whitespace-separated tokens of a text, counted where
    they start: at a character that is not whitespace and is the first
    of the text or follows whitespace.  [after_space] tells whether the
    previous character was whitespace (or there was none). *)
Fixpoint token_starts (after_space : bool) (s : pystr) : nat :=
  match s with
  | [] => 0
  | c :: s' =>
      (if negb (isspace c) && after_space then 1 else 0)
      + token_starts (isspace c) s'
  end.

Definition token_count (s : pystr) : nat := token_starts true s.

(** What [event_data.get(k)] gives on a [dict] with the items [event]. *)
Definition got (k : string) (event : list (pystr * pyval)) : pyval :=
  match assoc (lit k) event with Some v => v | None => PyNone end.

(** A response with status 400 whose body starts with [Bad Request]. *)
Definition bad_request (m : io response) : Prop :=
  exists detail, outcome m = Returned (lit "Bad Request" ++ detail, 400%Z).

(** A key of a [dict] that is missing or empty: absent, or present with
    a value that counts as false ([None], the empty string, ...). *)
Definition missing_or_empty (k : string) (d : list (pystr * pyval)) : Prop :=
  forall v, assoc (lit k) d = Some v -> truthy v = false.

(** A message that lacks a [data] field: any value but a [dict] with the
    key [data]. *)
Definition lacks_data (m : pyval) : Prop :=
  forall fields, m = PyDict fields -> assoc (lit "data") fields = None.

(** The message data fails to decode with fault [e]: in base64, in
    UTF-8 or in JSON. *)
Definition decode_fails (py : pylib) (data : pyval) (e : exn) : Prop :=
  b64decode py data = Raised e
  \/ (exists raw, b64decode py data = Returned raw /\ decode_utf8 py raw = Raised e)
  \/ (exists raw text,
        b64decode py data = Returned raw /\ decode_utf8 py raw = Returned text
        /\ json_loads py (strip text) = Raised e).

(** The envelope [{"message": {"data": data, ...}, ...}]. *)
Definition carries (envelope : pyval) (data : pyval) : Prop :=
  exists items fields,
    envelope = PyDict items
    /\ assoc (lit "message") items = Some (PyDict fields)
    /\ assoc (lit "data") fields = Some data.

(** A computation that ends in a fault. *)
Definition raises {A} (m : io A) : Prop := exists e, outcome m = Raised e.

(** The three fixed tags of a record. *)
Definition fixed_tags : pyval :=
  PyList [PyStr (lit "simulated"); PyStr (lit "ocr"); PyStr (lit "processed")].

(** The record of the scenario for (b1, f1.txt) with the text
    [hello world], stamped [now]. *)
Definition f1_record (now : pystr) : pyval :=
  PyDict [ (lit "filename", PyStr (lit "f1.txt"));
           (lit "upload_timestamp", PyStr now);
           (lit "word_count", PyInt 2);
           (lit "content_snippet", PyStr (lit "hello world"));
           (lit "tags", fixed_tags) ].

(** C6 as the specification words it: [insert_into_bigquery] raises
    exactly when the insert call returns a list of per-row errors that
    is not empty. *)
Definition raises_only_on_row_errors (py : pylib) (svc : services) : Prop :=
  forall row,
    raises (insert_into_bigquery py svc row)
    <-> exists errors,
        insert_rows_json svc (table_id svc) [row] = Returned errors /\ errors <> [].

(** Line 27 followed by lines 28-62.  [got_json] is what
    [request.get_json()] does on the request: it returns the parsed body
    or raises (on a body that is not JSON, or that is not declared as
    JSON).  The call stands outside the [try], so a fault of it leaves
    [index]. *)
Definition index_on_request (py : pylib) (svc : services) (got_json : result pyval)
  : io response :=
  bind (lift got_json) (index py svc).

(** C1 as the specification words it: a JSON object without [message],
    or with a [message] that is not a [dict], gets 400. *)
Definition message_shape_enforced (py : pylib) (svc : services) : Prop :=
  forall items,
    (assoc (lit "message") items = None
     \/ exists m, assoc (lit "message") items = Some m /\ isinstance_dict m = false) ->
    bad_request (index py svc (PyDict items)).

(* ================================================================= *)
(** ** Concrete environments *)

(** A [repr] that prints nothing, for running the handler where no
    statement reads the log. *)
Definition silent_repr (_ : pyval) : pystr := [].

Definition is_str (s : string) (v : pyval) : bool :=
  match v with PyStr x => pystr_eqb x (lit s) | _ => false end.

(** A store that holds the text [hello world] at (b1, f1.txt) and
    nothing else, and a warehouse that accepts every row. *)
Definition hello_services : services :=
  {| download_as_text := fun b n =>
       if is_str "b1" b && is_str "f1.txt" n then Returned (lit "hello world")
       else Raised (Exn "google.api_core.exceptions.NotFound" (lit "404 No such object"));
     utcnow_isoformat := lit "2024-05-01T12:00:00.000000";
     project := lit "demo-project";
     BQ_DATASET := lit "doc_processing";
     BQ_TABLE := lit "metadata";
     insert_rows_json := fun _ _ => Returned [] |}.

(** The same store in front of a warehouse that reports an error for
    the row. *)
Definition rejecting_services : services :=
  {| download_as_text := download_as_text hello_services;
     utcnow_isoformat := utcnow_isoformat hello_services;
     project := project hello_services;
     BQ_DATASET := BQ_DATASET hello_services;
     BQ_TABLE := BQ_TABLE hello_services;
     insert_rows_json := fun _ _ =>
       Returned [PyDict [(lit "index", PyInt 0);
                         (lit "errors", PyList [PyDict [(lit "reason", PyStr (lit "invalid"))]])]] |}.

(** A JSON string literal without escapes. *)
Definition quoted (s : string) : pystr := 34%N :: lit s ++ [34%N].

(** The payload of the scenario for (b1, f1.txt): the JSON text of an
    object with [bucket] b1 and [name] f1.txt. *)
Definition f1_payload : pystr :=
  lit "{" ++ quoted "bucket" ++ lit ":" ++ quoted "b1" ++ lit ","
    ++ quoted "name" ++ lit ":" ++ quoted "f1.txt" ++ lit "}".

(** A payload that names a bucket and no object. *)
Definition nameless_payload : pystr :=
  lit "{" ++ quoted "bucket" ++ lit ":" ++ quoted "b1" ++ lit "}".

(** A payload for an object that [hello_services] does not hold. *)
Definition absent_payload : pystr :=
  lit "{" ++ quoted "bucket" ++ lit ":" ++ quoted "b1" ++ lit ","
    ++ quoted "name" ++ lit ":" ++ quoted "gone.txt" ++ lit "}".

(** The envelope that carries a payload: a [message] whose [data] is the
    base64 of the payload's UTF-8 bytes. *)

Definition envelope_of (payload : pystr) : pyval :=
  PyDict [(lit "message",
            PyDict [(lit "data", PyStr (Base64.b64encode (Utf8.encode payload)))])].

(* ================================================================= *)
(** ** The configuration read at start-up *)

(** [os.environ.get(name, default)]: the value of a variable that is
    set, the empty string included, and the default otherwise. *)
Fixpoint environ_get (environ : list (pystr * pystr)) (name default : pystr) : pystr :=
  match environ with
  | [] => default
  | (k, v) :: rest => if pystr_eqb name k then v else environ_get rest name default
  end.

(** Lines 21-22: the dataset and the table are read from the process
    environment when the module is loaded; the clients and the clock are
    those of [svc]. *)
Definition at_startup (environ : list (pystr * pystr)) (svc : services) : services :=
  {| download_as_text := download_as_text svc;
     utcnow_isoformat := utcnow_isoformat svc;
     project := project svc;
     BQ_DATASET := environ_get environ (lit "BQ_DATASET") (lit "doc_processing");
     BQ_TABLE := environ_get environ (lit "BQ_TABLE") (lit "metadata");
     insert_rows_json := insert_rows_json svc |}.

(** What a variable reads as: its default when the environment does
    not set it, and the value of its binding when it does. *)
Inductive reads (environ : list (pystr * pystr)) (name default : pystr)
  : pystr -> Prop :=
| reads_default :
    (forall v, ~ In (name, v) environ) -> reads environ name default default
| reads_binding (before after : list (pystr * pystr)) (v : pystr) :
    environ = before ++ (name, v) :: after ->
    (forall v', ~ In (name, v') before) ->
    reads environ name default v.

(* ================================================================= *)
(** ** The ways a request can go *)

(** An envelope that leads to processing: its [message.data] decodes to
    a JSON object whose [bucket] is [b] and [name] is [n], both counting
    as true. *)
Definition actionable (py : pylib) (envelope b n : pyval) : Prop :=
  exists data event,
    carries envelope data
    /\ decode_event py data = Returned (PyDict event)
    /\ got "bucket" event = b /\ got "name" event = n
    /\ truthy b = true /\ truthy n = true.

(** The paths through [index], [process_file] and
    [insert_into_bigquery], each with the values that decide it. *)
Inductive path : Type :=
| No_message                       (* lines 28-36: no usable envelope *)
| No_data                          (* line 40 false, then line 62 *)
| Decode_fault (e : exn)           (* a fault in lines 42-44 *)
| Not_an_object (v : pyval)        (* line 47 on a value without [get] *)
| Ignored_event                    (* lines 50-52 *)
| Fetch_fault (b n : pyval) (e : exn)
| Insert_fault (b n : pyval) (content : pystr) (e : exn)
| Row_rejected (b n : pyval) (content : pystr) (err : pyval) (errs : list pyval)
| Row_stored (b n : pyval) (content : pystr).

(** When a request takes a path. *)
Definition takes (py : pylib) (svc : services) (envelope : pyval) (p : path) : Prop :=
  match p with
  | No_message => key_in (lit "message") envelope = false
  | No_data =>
      exists items m,
        envelope = PyDict items /\ assoc (lit "message") items = Some m /\ lacks_data m
  | Decode_fault e =>
      exists data, carries envelope data /\ decode_event py data = Raised e
  | Not_an_object v =>
      exists data,
        carries envelope data /\ decode_event py data = Returned v
        /\ isinstance_dict v = false
  | Ignored_event =>
      exists data event,
        carries envelope data /\ decode_event py data = Returned (PyDict event)
        /\ (truthy (got "bucket" event) = false \/ truthy (got "name" event) = false)
  | Fetch_fault b n e =>
      actionable py envelope b n /\ download_as_text svc b n = Raised e
  | Insert_fault b n content e =>
      actionable py envelope b n /\ download_as_text svc b n = Returned content
      /\ insert_rows_json svc (table_id svc)
           [extract_metadata n (utcnow_isoformat svc) content] = Raised e
  | Row_rejected b n content err errs =>
      actionable py envelope b n /\ download_as_text svc b n = Returned content
      /\ insert_rows_json svc (table_id svc)
           [extract_metadata n (utcnow_isoformat svc) content] = Returned (err :: errs)
  | Row_stored b n content =>
      actionable py envelope b n /\ download_as_text svc b n = Returned content
      /\ insert_rows_json svc (table_id svc)
           [extract_metadata n (utcnow_isoformat svc) content] = Returned []
  end.

(** The response to a fault with message [msg] caught by [index], and
    the log record that goes with it. *)
Definition error_response (msg : pystr) : response := (lit "Error: " ++ msg, 500%Z).

Definition error_record (msg : pystr) : event :=
  Log ERROR (lit "Error processing message: " ++ msg).

(** The records [index] and [process_file] write on the way to the
    fetch, after it, and when [process_file] catches a fault. *)
Definition processing_record (py : pylib) (b n : pyval) : event :=
  Log INFO (lit "Processing file: " ++ fmt py n ++ lit " from bucket: " ++ fmt py b).

Definition extracted_record (py : pylib) (row : pyval) : event :=
  Log INFO (lit "Extracted metadata: " ++ repr py row).

Definition failed_record (py : pylib) (n : pyval) (msg : pystr) : event :=
  Log ERROR (lit "Failed to process file " ++ fmt py n ++ lit ": " ++ msg).

(** What [str(e)] is for the fault [insert_into_bigquery] raises on the
    per-row errors [errors]. *)
Definition insert_failed (py : pylib) (errors : list pyval) : pystr :=
  lit "BigQuery insert failed: " ++ repr py (PyList errors).

(** The events and the response of a request, by the path it takes. *)
Definition result_of (py : pylib) (svc : services) (envelope : pyval) (p : path)
  : io response :=
  match p with
  | No_message =>
      let msg := if truthy envelope then lit "invalid Pub/Sub message format"
                 else lit "no Pub/Sub message received" in
      ([Stdout (lit "error: " ++ msg)], Returned (lit "Bad Request: " ++ msg, 400%Z))
  | No_data => ([], Returned (lit "OK", 200%Z))
  | Decode_fault e =>
      ([error_record (exn_message e)], Returned (error_response (exn_message e)))
  | Not_an_object v =>
      let msg := lit "'" ++ type_name v ++ lit "' object has no attribute 'get'" in
      ([error_record msg], Returned (error_response msg))
  | Ignored_event =>
      ([Log WARNING (lit "Bucket or filename missing in event data.")],
       Returned (lit "OK", 200%Z))
  | Fetch_fault b n e =>
      ([processing_record py b n; Download b n;
        failed_record py n (exn_message e); error_record (exn_message e)],
       Returned (error_response (exn_message e)))
  | Insert_fault b n content e =>
      let row := extract_metadata n (utcnow_isoformat svc) content in
      ([processing_record py b n; Download b n; extracted_record py row;
        InsertRows (table_id svc) [row];
        failed_record py n (exn_message e); error_record (exn_message e)],
       Returned (error_response (exn_message e)))
  | Row_rejected b n content err errs =>
      let row := extract_metadata n (utcnow_isoformat svc) content in
      let msg := insert_failed py (err :: errs) in
      ([processing_record py b n; Download b n; extracted_record py row;
        InsertRows (table_id svc) [row];
        Log ERROR (lit "Encountered errors while inserting rows: "
                     ++ repr py (PyList (err :: errs)));
        failed_record py n msg; error_record msg],
       Returned (error_response msg))
  | Row_stored b n content =>
      let row := extract_metadata n (utcnow_isoformat svc) content in
      ([processing_record py b n; Download b n; extracted_record py row;
        InsertRows (table_id svc) [row];
        Log INFO (lit "Successfully inserted row into BigQuery.")],
       Returned (lit "OK", 200%Z))
  end.

(** The payload of the scenario with its keys in another order and a
    field the handler does not read. *)
Definition f1_payload_with_size : pystr :=
  lit "{" ++ quoted "name" ++ lit ":" ++ quoted "f1.txt" ++ lit ","
    ++ quoted "size" ++ lit ":" ++ quoted "11" ++ lit ","
    ++ quoted "bucket" ++ lit ":" ++ quoted "b1" ++ lit "}".

(** A log record at level [ERROR]. *)
Definition is_error_record (ev : event) : bool :=
  match ev with Log ERROR _ => true | _ => false end.

(** A fetch from the object store. *)
Definition is_fetch (ev : event) : bool :=
  match ev with Download _ _ => true | _ => false end.

(** The store of [hello_services] in front of a warehouse that cannot
    be reached: the insert call itself raises. *)
Definition unreachable_warehouse : services :=
  {| download_as_text := download_as_text hello_services;
     utcnow_isoformat := utcnow_isoformat hello_services;
     project := project hello_services;
     BQ_DATASET := BQ_DATASET hello_services;
     BQ_TABLE := BQ_TABLE hello_services;
     insert_rows_json := fun _ _ =>
       Raised (Exn "google.api_core.exceptions.ServiceUnavailable"
                 (lit "503 backend unavailable")) |}.

(* ================================================================= *)
(** ** Facts about the monad and the data *)

Unset Implicit Arguments.

Lemma pystr_eqb_refl (s : pystr) : pystr_eqb s s = true.
Proof.
  induction s as [|c s IH]; simpl; [reflexivity|].
  now rewrite N.eqb_refl.
Qed.

Lemma pystr_eqb_eq (a b : pystr) : pystr_eqb a b = true <-> a = b.
Proof.
  split; [|intros ->; apply pystr_eqb_refl].
  revert b; induction a as [|x a IH]; intros [|y b]; simpl; try discriminate; auto.
  rewrite andb_true_iff, N.eqb_eq. intros [-> H]. now rewrite (IH _ H).
Qed.

Lemma bind_returned {A B} (t : list event) (a : A) (k : A -> io B) :
  bind (t, Returned a) k = (t ++ trace (k a), outcome (k a)).
Proof. unfold bind, trace, outcome. now destruct (k a). Qed.

Lemma bind_lift_returned {A B} (a : A) (k : A -> io B) :
  bind (lift (Returned a)) k = k a.
Proof. unfold bind, lift. now destruct (k a). Qed.

Lemma bind_raised {A B} (t : list event) (e : exn) (k : A -> io B) :
  bind (t, Raised e) k = (t, Raised e).
Proof. reflexivity. Qed.

Lemma try_except_returned {A} (t : list event) (a : A) (h : exn -> io A) :
  try_except (t, Returned a) h = (t, Returned a).
Proof. reflexivity. Qed.

Lemma try_except_raised {A} (t : list event) (e : exn) (h : exn -> io A) :
  try_except (t, Raised e) h = (t ++ trace (h e), outcome (h e)).
Proof. unfold try_except, trace, outcome. now destruct (h e). Qed.

(** A [dict] that has a key is not empty, so it counts as true. *)
Lemma dict_with_key_truthy (k : pystr) (items : list (pystr * pyval)) (v : pyval) :
  assoc k items = Some v -> truthy (PyDict items) = true.
Proof. destruct items; simpl; [discriminate | reflexivity]. Qed.

Lemma downstream_app (t u : list event) :
  downstream (t ++ u) = downstream t ++ downstream u.
Proof. apply filter_app. Qed.

Lemma inserts_app (t u : list event) : inserts (t ++ u) = inserts t ++ inserts u.
Proof. apply filter_app. Qed.

(* ================================================================= *)
(** ** Facts about [split] *)

Lemma split_from_length (cur s : pystr) :
  List.length (split_from cur s)
  = (match cur with [] => 0 | _ => 1 end)
    + token_starts (match cur with [] => true | _ => false end) s.
Proof.
  revert cur; induction s as [|c s IH]; intros cur; simpl.
  - destruct cur; reflexivity.
  - destruct (isspace c) eqn:Hc; simpl.
    + destruct cur; simpl; rewrite IH; reflexivity.
    + rewrite IH. destruct cur; simpl; lia.
Qed.

(** [len(s.split())] is the number of whitespace-separated tokens. *)
Lemma split_length (s : pystr) : List.length (split s) = token_count s.
Proof. unfold split, token_count. now rewrite split_from_length. Qed.

(** The tokens of [split], put end to end, are the text without its
    whitespace: nothing else is dropped or added. *)
Lemma split_from_concat (cur s : pystr) :
  Forall (fun c => isspace c = false) cur ->
  List.concat (split_from cur s) = rev cur ++ filter (fun c => negb (isspace c)) s.
Proof.
  revert cur; induction s as [|c s IH]; intros cur Hcur; simpl.
  - destruct cur; simpl; now rewrite ?app_nil_r.
  - destruct (isspace c) eqn:Hc; simpl.
    + destruct cur as [|x cur]; simpl.
      * now rewrite IH by constructor.
      * now rewrite IH by constructor.
    + rewrite IH by (constructor; assumption). simpl.
      now rewrite <- app_assoc.
Qed.

Lemma split_concat (s : pystr) :
  List.concat (split s) = filter (fun c => negb (isspace c)) s.
Proof. unfold split. now rewrite split_from_concat by constructor. Qed.

(** Every token is non-empty and free of whitespace. *)
Lemma split_from_tokens (cur s : pystr) :
  Forall (fun c => isspace c = false) cur ->
  Forall (fun tok => tok <> [] /\ Forall (fun c => isspace c = false) tok)
    (split_from cur s).
Proof.
  assert (Hrev : forall x (l : pystr),
             Forall (fun c => isspace c = false) (x :: l) ->
             rev (x :: l) <> [] /\ Forall (fun c => isspace c = false) (rev (x :: l))).
  { intros x l H. split.
    - simpl. intros E. now destruct (rev l).
    - apply Forall_rev. exact H. }
  revert cur; induction s as [|c s IH]; intros cur Hcur; simpl.
  - destruct cur; constructor; auto.
  - destruct (isspace c) eqn:Hc.
    + destruct cur as [|x cur]; [apply IH; constructor|].
      constructor; [apply Hrev; assumption | apply IH; constructor].
    + apply IH. constructor; assumption.
Qed.

Lemma split_tokens (s : pystr) :
  Forall (fun tok => tok <> [] /\ Forall (fun c => isspace c = false) tok) (split s).
Proof. apply split_from_tokens. constructor. Qed.

(* ================================================================= *)
(** ** The definitions at work *)

Example split_hello_world : split (lit "hello world") = [lit "hello"; lit "world"].
Proof. reflexivity. Qed.

Example split_runs_of_whitespace :
  split (9 :: lit "  a  bc" ++ [10; 160; 100; 13])%N = [lit "a"; lit "bc"; lit "d"]
  /\ split (lit "   ") = []
  /\ split [] = [].
Proof. repeat split. Qed.

Example token_count_hello_world : token_count (lit "hello world") = 2.
Proof. reflexivity. Qed.

Example strip_both_ends : strip (lit "  {} " ++ [10%N]) = lit "{}".
Proof. reflexivity. Qed.

Example truthy_values :
  truthy PyNone = false /\ truthy (PyStr []) = false /\ truthy (PyInt 0) = false
  /\ truthy (PyDict []) = false /\ truthy (PyFloat (S754_zero true)) = false
  /\ truthy (PyStr (lit "b1")) = true /\ truthy (PyFloat S754_nan) = true.
Proof. repeat split. Qed.

Example b64decode_padded :
  Base64.b64decode (PyStr (lit "e30=")) = Returned (ascii_bytes "{}").
Proof. reflexivity. Qed.

Example b64decode_unpadded :
  Base64.b64decode (PyStr (lit "e30"))
  = Raised (Exn "binascii.Error" (lit "Incorrect padding")).
Proof. reflexivity. Qed.

Example b64decode_of_a_number :
  Base64.b64decode (PyInt 7)
  = Raised (Exn "TypeError"
              (lit "argument should be a bytes-like object or ASCII string, not 'int'")).
Proof. reflexivity. Qed.

Example utf8_decode_euro :
  Utf8.decode (List.map byte_of_N [226; 130; 172]%N) = Returned [8364%N].
Proof. reflexivity. Qed.

Example utf8_decode_truncated :
  Utf8.decode (List.map byte_of_N [97; 226; 130]%N)
  = Raised (Exn "UnicodeDecodeError"
              (lit "'utf-8' codec can't decode bytes in position 1-2: unexpected end of data")).
Proof. reflexivity. Qed.

Example json_loads_f1_payload :
  Json.loads f1_payload
  = Returned (PyDict [(lit "bucket", PyStr (lit "b1")); (lit "name", PyStr (lit "f1.txt"))]).
Proof. vm_compute. reflexivity. Qed.

Example json_loads_last_key_wins :
  Json.loads (lit "{" ++ quoted "a" ++ lit ":1," ++ quoted "b" ++ lit ":[true,null],"
                ++ quoted "a" ++ lit ": -3}")
  = Returned (PyDict [(lit "a", PyInt (-3));
                      (lit "b", PyList [PyBool true; PyNone])]).
Proof. vm_compute. reflexivity. Qed.

Example json_loads_float :
  Json.loads (lit "0.1") = Returned (PyFloat (S754_finite false 7205759403792794 (-56))).
Proof. vm_compute. reflexivity. Qed.

Example json_loads_not_json :
  Json.loads (lit "not json")
  = Raised (Exn "json.decoder.JSONDecodeError"
              (lit "Expecting value: line 1 column 1 (char 0)")).
Proof. vm_compute. reflexivity. Qed.

(* ================================================================= *)
(** ** The handler, branch by branch *)

Section Branches.

Variable py : pylib.
Variable svc : services.

Local Open Scope io_scope.

(** With a [message] in the envelope, [index] is lines 38-62. *)
Lemma index_with_message (items : list (pystr * pyval)) (m : pyval) :
  assoc (lit "message") items = Some m ->
  index py svc (PyDict items)
  = (returned <-
       (if isinstance_dict m && key_in (lit "data") m
        then try_except (index_try py svc m) index_except
        else ret None) ;;
     match returned with
     | Some r => ret r
     | None => ret (lit "OK", 200%Z)
     end).
Proof.
  intros H. unfold index.
  rewrite (dict_with_key_truthy _ _ _ H).
  unfold isinstance_dict at 1, key_in at 1, py_getitem. rewrite H.
  simpl negb. simpl orb. cbv iota.
  now rewrite bind_lift_returned.
Qed.

(** With [data] in the message, [index] is its [try] statement. *)
Lemma index_with_data (envelope data : pyval) :
  carries envelope data ->
  exists fields,
    assoc (lit "data") fields = Some data
    /\ index py svc envelope
       = (returned <- try_except (index_try py svc (PyDict fields)) index_except ;;
          match returned with
          | Some r => ret r
          | None => ret (lit "OK", 200%Z)
          end).
Proof.
  intros (items & fields & -> & Hm & Hd). exists fields. split; [exact Hd|].
  rewrite (index_with_message _ _ Hm).
  unfold isinstance_dict, key_in. rewrite Hd. reflexivity.
Qed.

Lemma index_try_decode_raises (fields : list (pystr * pyval)) (data : pyval) (e : exn) :
  assoc (lit "data") fields = Some data ->
  decode_event py data = Raised e ->
  index_try py svc (PyDict fields) = ([], Raised e).
Proof.
  intros Hd He. unfold index_try, py_getitem. rewrite Hd.
  rewrite bind_lift_returned, He. reflexivity.
Qed.

Lemma index_try_not_an_object (fields : list (pystr * pyval)) (data v : pyval) :
  assoc (lit "data") fields = Some data ->
  decode_event py data = Returned v ->
  isinstance_dict v = false ->
  index_try py svc (PyDict fields)
  = ([], Raised (Exn "AttributeError"
                   (lit "'" ++ type_name v ++ lit "' object has no attribute 'get'"))).
Proof.
  intros Hd Hv Hn. unfold index_try, py_getitem. rewrite Hd.
  rewrite bind_lift_returned, Hv, bind_lift_returned.
  destruct v; try discriminate; reflexivity.
Qed.

Lemma index_try_event (fields : list (pystr * pyval)) (data : pyval)
      (event : list (pystr * pyval)) :
  assoc (lit "data") fields = Some data ->
  decode_event py data = Returned (PyDict event) ->
  index_try py svc (PyDict fields)
  = (let bucket_name := got "bucket" event in
     let file_name := got "name" event in
     if negb (truthy bucket_name) || negb (truthy file_name) then
       logger WARNING (lit "Bucket or filename missing in event data.") ;;
       ret (Some (lit "OK", 200%Z))
     else
       logger INFO (lit "Processing file: " ++ fmt py file_name
                      ++ lit " from bucket: " ++ fmt py bucket_name) ;;
       process_file py svc bucket_name file_name ;;
       ret None).
Proof.
  intros Hd Hv. unfold index_try, py_getitem. rewrite Hd.
  rewrite bind_lift_returned, Hv, bind_lift_returned.
  unfold py_get. now rewrite !bind_lift_returned.
Qed.

(** The response to a fault caught by [index]: status 500, the fault's
    message in the body, and one more log record. *)
Lemma index_catches (envelope data : pyval) (t : list event) (e : exn) :
  carries envelope data ->
  (forall fields, assoc (lit "data") fields = Some data ->
                  index_try py svc (PyDict fields) = (t, Raised e)) ->
  index py svc envelope
  = (t ++ [Log ERROR (lit "Error processing message: " ++ exn_message e)],
     Returned (lit "Error: " ++ exn_message e, 500%Z)).
Proof.
  intros Hc Ht. destruct (index_with_data _ _ Hc) as (fields & Hd & ->).
  rewrite (Ht _ Hd). rewrite try_except_raised.
  unfold index_except, logger, emit, ret. simpl.
  rewrite !app_nil_r. reflexivity.
Qed.

(** The response when the [try] of [index] ends without a fault. *)
Lemma index_completes (envelope data : pyval) (t : list event)
      (returned : option response) :
  carries envelope data ->
  (forall fields, assoc (lit "data") fields = Some data ->
                  index_try py svc (PyDict fields) = (t, Returned returned)) ->
  index py svc envelope
  = (t, Returned (match returned with Some r => r | None => (lit "OK", 200%Z) end)).
Proof.
  intros Hc Ht. destruct (index_with_data _ _ Hc) as (fields & Hd & ->).
  rewrite (Ht _ Hd). rewrite try_except_returned.
  destruct returned; simpl; rewrite app_nil_r; reflexivity.
Qed.

(** [insert_into_bigquery] by what the insert call does. *)
Lemma insert_accepted (row : pyval) :
  insert_rows_json svc (table_id svc) [row] = Returned [] ->
  insert_into_bigquery py svc row
  = ([InsertRows (table_id svc) [row];
      Log INFO (lit "Successfully inserted row into BigQuery.")],
     Returned tt).
Proof.
  intros H. unfold insert_into_bigquery, lift, emit. simpl. rewrite H. reflexivity.
Qed.

Lemma insert_rejected (row : pyval) (err : pyval) (errs : list pyval) :
  insert_rows_json svc (table_id svc) [row] = Returned (err :: errs) ->
  insert_into_bigquery py svc row
  = ([InsertRows (table_id svc) [row];
      Log ERROR (lit "Encountered errors while inserting rows: "
                   ++ repr py (PyList (err :: errs)))],
     Raised (Exn "Exception"
               (lit "BigQuery insert failed: " ++ repr py (PyList (err :: errs))))).
Proof.
  intros H. unfold insert_into_bigquery, lift, emit. simpl. rewrite H. reflexivity.
Qed.

Lemma insert_call_raises (row : pyval) (e : exn) :
  insert_rows_json svc (table_id svc) [row] = Raised e ->
  insert_into_bigquery py svc row = ([InsertRows (table_id svc) [row]], Raised e).
Proof.
  intros H. unfold insert_into_bigquery, lift, emit. simpl. rewrite H. reflexivity.
Qed.

(** The one insert call of [insert_into_bigquery]. *)
Lemma insert_calls_once (row : pyval) :
  inserts (trace (insert_into_bigquery py svc row)) = [InsertRows (table_id svc) [row]]
  /\ downstream (trace (insert_into_bigquery py svc row))
     = [InsertRows (table_id svc) [row]].
Proof.
  destruct (insert_rows_json svc (table_id svc) [row]) as [[|err errs]|e] eqn:H.
  - rewrite (insert_accepted _ H). split; reflexivity.
  - rewrite (insert_rejected _ _ _ H). split; reflexivity.
  - rewrite (insert_call_raises _ _ H). split; reflexivity.
Qed.

(** [process_file] when the fetch raises: the fault is logged and
    raised again, and nothing else happens. *)
Lemma process_file_fetch_raises (bucket_name file_name : pyval) (e : exn) :
  download_as_text svc bucket_name file_name = Raised e ->
  process_file py svc bucket_name file_name
  = ([Download bucket_name file_name;
      Log ERROR (lit "Failed to process file " ++ fmt py file_name
                   ++ lit ": " ++ exn_message e)],
     Raised e).
Proof.
  intros H. unfold process_file, lift, emit. simpl. rewrite H. reflexivity.
Qed.

(** [process_file] when the fetch gives [content]: the record is
    built, logged and handed to [insert_into_bigquery]; a fault of the
    insert is logged and raised again. *)
Lemma process_file_fetched (bucket_name file_name : pyval) (content : pystr) :
  download_as_text svc bucket_name file_name = Returned content ->
  let metadata := extract_metadata file_name (utcnow_isoformat svc) content in
  let inserted := insert_into_bigquery py svc metadata in
  process_file py svc bucket_name file_name
  = (Download bucket_name file_name
       :: Log INFO (lit "Extracted metadata: " ++ repr py metadata)
       :: trace inserted
       ++ match outcome inserted with
          | Returned _ => []
          | Raised e => [Log ERROR (lit "Failed to process file " ++ fmt py file_name
                                      ++ lit ": " ++ exn_message e)]
          end,
     outcome inserted).
Proof.
  intros H metadata inserted. unfold process_file, lift, emit. simpl. rewrite H.
  fold metadata. unfold logger, emit. simpl. fold inserted.
  destruct inserted as [t [[]|e]]; simpl.
  - now rewrite app_nil_r.
  - reflexivity.
Qed.

End Branches.

(* ================================================================= *)
(** ** The handler always answers *)

(** Whatever the request carries and whatever the library and the
    services do, [index] ends with a response: no fault leaves it. *)
Theorem index_always_responds (py : pylib) (svc : services) (envelope : pyval) :
  exists r, outcome (index py svc envelope) = Returned r.
Proof.
  unfold index.
  destruct (negb (truthy envelope)); [eexists; reflexivity|].
  destruct (negb (isinstance_dict envelope) || negb (key_in (lit "message") envelope))
    eqn:Hguard; [eexists; reflexivity|].
  apply orb_false_elim in Hguard as [Hd Hk].
  destruct envelope as [| | | | | |items]; try discriminate.
  unfold key_in in Hk. unfold py_getitem.
  destruct (assoc (lit "message") items) as [m|]; [|discriminate].
  rewrite bind_lift_returned.
  destruct (isinstance_dict m && key_in (lit "data") m).
  - destruct (index_try py svc m) as [t [[r|]|e]].
    + rewrite try_except_returned. eexists; reflexivity.
    + rewrite try_except_returned. eexists; reflexivity.
    + rewrite try_except_raised. eexists; reflexivity.
  - eexists; reflexivity.
Qed.

(* ================================================================= *)
(** ** The envelope *)

(** C1, as worded, does not hold: the envelope [{"message": "hello"}]
    is a JSON object whose [message] is present and is not a [dict], and
    the handler answers it 200 [OK], not 400. *)
Lemma message_shape_not_enforced :
  (assoc (lit "message") [(lit "message", PyStr (lit "hello"))]
   = Some (PyStr (lit "hello"))
   /\ isinstance_dict (PyStr (lit "hello")) = false)
  /\ index (cpython silent_repr) hello_services
       (PyDict [(lit "message", PyStr (lit "hello"))])
     = ([], Returned (lit "OK", 200%Z))
  /\ ~ message_shape_enforced (cpython silent_repr) hello_services.
Proof.
  split; [split; reflexivity|]. split; [reflexivity|].
  intros H.
  destruct (H [(lit "message", PyStr (lit "hello"))]) as [detail Hd].
  - right. exists (PyStr (lit "hello")). split; reflexivity.
  - vm_compute in Hd. discriminate Hd.
Qed.

(** C1 (amended): for every request whose body is a JSON object, when
    the key [message] is absent the handler answers 400 with a body that
    starts with [Bad Request] and calls nothing downstream; when
    [message] is present with a value that is not a [dict], the handler
    answers 200 [OK] and does nothing else. *)
Theorem message_key_required (py : pylib) (svc : services)
        (items : list (pystr * pyval)) :
  (assoc (lit "message") items = None ->
   bad_request (index py svc (PyDict items))
   /\ downstream (trace (index py svc (PyDict items))) = [])
  /\ (forall m, assoc (lit "message") items = Some m -> isinstance_dict m = false ->
      outcome (index py svc (PyDict items)) = Returned (lit "OK", 200%Z)
      /\ trace (index py svc (PyDict items)) = []).
Proof.
  split.
  - intros Habsent. unfold index, bad_request.
    destruct items as [|item items].
    + split; [eexists; reflexivity | reflexivity].
    + change (truthy (PyDict (item :: items))) with true.
      unfold isinstance_dict, key_in. rewrite Habsent.
      split; [eexists; reflexivity | reflexivity].
  - intros m Hm Hshape. rewrite (index_with_message py svc items m Hm), Hshape.
    split; reflexivity.
Qed.

Lemma message_key_required_witness :
  (bad_request (index (cpython silent_repr) hello_services
                  (PyDict [(lit "subscription", PyStr (lit "s1"))]))
   /\ downstream (trace (index (cpython silent_repr) hello_services
                           (PyDict [(lit "subscription", PyStr (lit "s1"))]))) = [])
  /\ (outcome (index (cpython silent_repr) hello_services
                 (PyDict [(lit "message", PyStr (lit "hello"))]))
      = Returned (lit "OK", 200%Z)
      /\ trace (index (cpython silent_repr) hello_services
                  (PyDict [(lit "message", PyStr (lit "hello"))])) = []).
Proof.
  split.
  - apply (proj1 (message_key_required (cpython silent_repr) hello_services
                    [(lit "subscription", PyStr (lit "s1"))])).
    reflexivity.
  - apply (proj2 (message_key_required (cpython silent_repr) hello_services
                    [(lit "message", PyStr (lit "hello"))])
             (PyStr (lit "hello"))); reflexivity.
Defined.

(** C8: for every envelope that is a JSON object with a [message] whose
    value lacks a [data] field, whatever else the envelope and the
    message hold, the handler answers 200 [OK] and nothing is processed:
    no fetch, no extraction, no insert, not even a log record. *)
Theorem message_without_data_is_accepted (py : pylib) (svc : services)
        (items : list (pystr * pyval)) (m : pyval) :
  assoc (lit "message") items = Some m ->
  lacks_data m ->
  outcome (index py svc (PyDict items)) = Returned (lit "OK", 200%Z)
  /\ trace (index py svc (PyDict items)) = [].
Proof.
  intros Hm Hlacks. rewrite (index_with_message py svc items m Hm).
  assert (Hno : isinstance_dict m && key_in (lit "data") m = false).
  { destruct m as [| | | | | |fields]; try reflexivity.
    unfold key_in. now rewrite (Hlacks fields eq_refl). }
  rewrite Hno. split; reflexivity.
Qed.

Lemma message_without_data_is_accepted_witness :
  outcome (index (cpython silent_repr) hello_services
             (PyDict [(lit "message", PyDict [(lit "attributes", PyDict [])]);
                      (lit "subscription", PyStr (lit "s1"))]))
  = Returned (lit "OK", 200%Z)
  /\ trace (index (cpython silent_repr) hello_services
              (PyDict [(lit "message", PyDict [(lit "attributes", PyDict [])]);
                       (lit "subscription", PyStr (lit "s1"))])) = [].
Proof.
  apply (message_without_data_is_accepted (cpython silent_repr) hello_services
           [(lit "message", PyDict [(lit "attributes", PyDict [])]);
            (lit "subscription", PyStr (lit "s1"))]
           (PyDict [(lit "attributes", PyDict [])])).
  - reflexivity.
  - intros fields E. injection E as <-. reflexivity.
Defined.

(* ================================================================= *)
(** ** The message data *)

Lemma carries_envelope_of (payload : pystr) :
  carries (envelope_of payload) (PyStr (Base64.b64encode (Utf8.encode payload))).
Proof. do 2 eexists. repeat split. Qed.

Lemma decode_fails_raises (py : pylib) (data : pyval) (e : exn) :
  decode_fails py data e -> decode_event py data = Raised e.
Proof.
  unfold decode_event.
  intros [H | [(raw & H1 & H2) | (raw & text & H1 & H2 & H3)]].
  - now rewrite H.
  - now rewrite H1, H2.
  - now rewrite H1, H2, H3.
Qed.

(** C4: for every envelope whose [message.data] fails to decode, in
    base64, in UTF-8 or in JSON, the handler catches the fault: it logs
    it and returns a response with status 500 whose body is [Error: ]
    followed by the fault's message.  The handler returns, so the fault
    does not leave it; nothing is fetched or inserted. *)
Theorem decode_failure_gives_500 (py : pylib) (svc : services)
        (envelope data : pyval) (e : exn) :
  carries envelope data ->
  decode_fails py data e ->
  outcome (index py svc envelope) = Returned (lit "Error: " ++ exn_message e, 500%Z)
  /\ trace (index py svc envelope)
     = [Log ERROR (lit "Error processing message: " ++ exn_message e)].
Proof.
  intros Hc Hf. apply decode_fails_raises in Hf.
  rewrite (index_catches py svc envelope data [] e Hc).
  - split; reflexivity.
  - intros fields Hd. exact (index_try_decode_raises py svc fields data e Hd Hf).
Qed.

Lemma decode_failure_gives_500_witness :
  outcome (index (cpython silent_repr) hello_services
             (PyDict [(lit "message", PyDict [(lit "data", PyStr (lit "e30"))])]))
  = Returned (lit "Error: Incorrect padding", 500%Z)
  /\ trace (index (cpython silent_repr) hello_services
              (PyDict [(lit "message", PyDict [(lit "data", PyStr (lit "e30"))])]))
     = [Log ERROR (lit "Error processing message: Incorrect padding")].
Proof.
  apply (decode_failure_gives_500 (cpython silent_repr) hello_services
           (PyDict [(lit "message", PyDict [(lit "data", PyStr (lit "e30"))])])
           (PyStr (lit "e30"))
           (Exn "binascii.Error" (lit "Incorrect padding"))).
  - do 2 eexists. repeat split.
  - left. reflexivity.
Defined.

(** C10: for every envelope whose [message.data] decodes to a JSON value
    that is not an object, the lookup [event_data.get] faults with an
    [AttributeError], which the handler catches: the response has status
    500 (not 200, not 400), and nothing is fetched or inserted. *)
Theorem non_object_payload_gives_500 (py : pylib) (svc : services)
        (envelope data v : pyval) :
  carries envelope data ->
  decode_event py data = Returned v ->
  isinstance_dict v = false ->
  outcome (index py svc envelope)
  = Returned (lit "Error: '" ++ type_name v ++ lit "' object has no attribute 'get'",
              500%Z)
  /\ downstream (trace (index py svc envelope)) = [].
Proof.
  intros Hc Hv Hshape.
  rewrite (index_catches py svc envelope data [] _ Hc
             (fun fields Hd => index_try_not_an_object py svc fields data v Hd Hv Hshape)).
  split; [|reflexivity].
  unfold outcome, exn_message. simpl snd.
  repeat (rewrite <- ?app_assoc; simpl). reflexivity.
Qed.

Lemma non_object_payload_gives_500_witness :
  outcome (index (cpython silent_repr) hello_services (envelope_of (lit "[1,2]")))
  = Returned (lit "Error: '" ++ type_name (PyList [PyInt 1; PyInt 2])
                ++ lit "' object has no attribute 'get'", 500%Z)
  /\ downstream (trace (index (cpython silent_repr) hello_services
                           (envelope_of (lit "[1,2]")))) = [].
Proof.
  apply (non_object_payload_gives_500 (cpython silent_repr) hello_services
           _ _ (PyList [PyInt 1; PyInt 2]) (carries_envelope_of (lit "[1,2]"))).
  - vm_compute. reflexivity.
  - reflexivity.
Defined.

(** C5: for every storage event that decoded to a JSON object in which
    [bucket] or [name] is missing or empty, the handler answers 200
    [OK]; the object store is not contacted and no row is inserted (the
    only effect is the warning in the log). *)
Theorem event_without_bucket_or_name_is_ignored (py : pylib) (svc : services)
        (envelope data : pyval) (event : list (pystr * pyval)) :
  carries envelope data ->
  decode_event py data = Returned (PyDict event) ->
  missing_or_empty "bucket" event \/ missing_or_empty "name" event ->
  outcome (index py svc envelope) = Returned (lit "OK", 200%Z)
  /\ downstream (trace (index py svc envelope)) = []
  /\ trace (index py svc envelope)
     = [Log WARNING (lit "Bucket or filename missing in event data.")].
Proof.
  intros Hc Hv Hmiss.
  assert (Hfalse : forall k, missing_or_empty k event -> truthy (got k event) = false).
  { intros k Hk. unfold got. destruct (assoc (lit k) event) as [v|] eqn:E.
    - exact (Hk v E).
    - reflexivity. }
  assert (Hguard : negb (truthy (got "bucket" event))
                   || negb (truthy (got "name" event)) = true).
  { destruct Hmiss as [H|H]; rewrite (Hfalse _ H); simpl;
      [reflexivity | apply orb_true_r]. }
  rewrite (index_completes py svc envelope data
             [Log WARNING (lit "Bucket or filename missing in event data.")]
             (Some (lit "OK", 200%Z)) Hc).
  - repeat split.
  - intros fields Hd. rewrite (index_try_event py svc fields data event Hd Hv).
    cbv zeta. rewrite Hguard. reflexivity.
Qed.

Lemma event_without_bucket_or_name_is_ignored_witness :
  outcome (index (cpython silent_repr) hello_services (envelope_of nameless_payload))
  = Returned (lit "OK", 200%Z)
  /\ downstream (trace (index (cpython silent_repr) hello_services
                           (envelope_of nameless_payload))) = []
  /\ trace (index (cpython silent_repr) hello_services (envelope_of nameless_payload))
     = [Log WARNING (lit "Bucket or filename missing in event data.")].
Proof.
  apply (event_without_bucket_or_name_is_ignored (cpython silent_repr) hello_services
           _ _ [(lit "bucket", PyStr (lit "b1"))]
           (carries_envelope_of nameless_payload)).
  - vm_compute. reflexivity.
  - right. intros v E. vm_compute in E. discriminate E.
Defined.

(* ================================================================= *)
(** ** The pipeline *)

(** An event with a bucket and a name is processed: the response is 200
    [OK] when [process_file] returns and 500 with the fault's message
    when it raises. *)
Lemma index_processes (py : pylib) (svc : services) (envelope data : pyval)
      (event : list (pystr * pyval)) :
  carries envelope data ->
  decode_event py data = Returned (PyDict event) ->
  truthy (got "bucket" event) = true ->
  truthy (got "name" event) = true ->
  let processed := process_file py svc (got "bucket" event) (got "name" event) in
  index py svc envelope
  = (Log INFO (lit "Processing file: " ++ fmt py (got "name" event)
                 ++ lit " from bucket: " ++ fmt py (got "bucket" event))
       :: trace processed
       ++ match outcome processed with
          | Returned _ => []
          | Raised e => [Log ERROR (lit "Error processing message: " ++ exn_message e)]
          end,
     Returned match outcome processed with
              | Returned _ => (lit "OK", 200%Z)
              | Raised e => (lit "Error: " ++ exn_message e, 500%Z)
              end).
Proof.
  intros Hc Hv Hb Hn processed.
  assert (Htry : forall fields, assoc (lit "data") fields = Some data ->
            index_try py svc (PyDict fields)
            = (Log INFO (lit "Processing file: " ++ fmt py (got "name" event)
                           ++ lit " from bucket: " ++ fmt py (got "bucket" event))
                 :: trace processed,
               match outcome processed with
               | Returned _ => Returned None
               | Raised e => Raised e
               end)).
  { intros fields Hd. rewrite (index_try_event py svc fields data event Hd Hv).
    cbv zeta. rewrite Hb, Hn. simpl negb. simpl orb. cbv iota.
    unfold logger, emit. rewrite bind_returned. fold processed.
    destruct processed as [t [[]|e]]; simpl; [now rewrite app_nil_r | reflexivity]. }
  destruct (outcome processed) as [[]|e] eqn:Ho.
  - rewrite (index_completes py svc envelope data _ None Hc Htry).
    now rewrite app_nil_r.
  - rewrite (index_catches py svc envelope data _ e Hc Htry). reflexivity.
Qed.

Lemma decode_f1_payload (repr_of : pyval -> pystr) :
  decode_event (cpython repr_of) (PyStr (Base64.b64encode (Utf8.encode f1_payload)))
  = Returned (PyDict [(lit "bucket", PyStr (lit "b1")); (lit "name", PyStr (lit "f1.txt"))]).
Proof. vm_compute. reflexivity. Qed.

(** C7: for every bucket and name of a notification whose fetch from the
    object store raises a fault, the handler catches the fault and
    answers 500 with a body that holds the fault's message; the fetch is
    the only downstream call, so no insert is attempted. *)
Theorem fetch_fault_gives_500 (py : pylib) (svc : services) (envelope data : pyval)
        (event : list (pystr * pyval)) (e : exn) :
  carries envelope data ->
  decode_event py data = Returned (PyDict event) ->
  truthy (got "bucket" event) = true ->
  truthy (got "name" event) = true ->
  download_as_text svc (got "bucket" event) (got "name" event) = Raised e ->
  outcome (index py svc envelope) = Returned (lit "Error: " ++ exn_message e, 500%Z)
  /\ inserts (trace (index py svc envelope)) = []
  /\ downstream (trace (index py svc envelope))
     = [Download (got "bucket" event) (got "name" event)].
Proof.
  intros Hc Hv Hb Hn Hfetch.
  rewrite (index_processes py svc envelope data event Hc Hv Hb Hn).
  rewrite (process_file_fetch_raises py svc _ _ e Hfetch).
  repeat split.
Qed.

Lemma fetch_fault_gives_500_witness :
  outcome (index (cpython silent_repr) hello_services (envelope_of absent_payload))
  = Returned (lit "Error: 404 No such object", 500%Z)
  /\ inserts (trace (index (cpython silent_repr) hello_services
                        (envelope_of absent_payload))) = []
  /\ downstream (trace (index (cpython silent_repr) hello_services
                           (envelope_of absent_payload)))
     = [Download (PyStr (lit "b1")) (PyStr (lit "gone.txt"))].
Proof.
  apply (fetch_fault_gives_500 (cpython silent_repr) hello_services _ _
           [(lit "bucket", PyStr (lit "b1")); (lit "name", PyStr (lit "gone.txt"))]
           (Exn "google.api_core.exceptions.NotFound" (lit "404 No such object"))
           (carries_envelope_of absent_payload)).
  - vm_compute. reflexivity.
  - reflexivity.
  - reflexivity.
  - reflexivity.
Defined.

(** C6, as worded, does not hold: in front of a warehouse that cannot
    be reached the insert call raises, so it returns no list of errors,
    and [insert_into_bigquery] raises all the same. *)
Lemma insert_raises_without_row_errors :
  insert_rows_json unreachable_warehouse (table_id unreachable_warehouse)
    [f1_record (utcnow_isoformat unreachable_warehouse)]
  = Raised (Exn "google.api_core.exceptions.ServiceUnavailable"
              (lit "503 backend unavailable"))
  /\ outcome (insert_into_bigquery (cpython silent_repr) unreachable_warehouse
                (f1_record (utcnow_isoformat unreachable_warehouse)))
     = Raised (Exn "google.api_core.exceptions.ServiceUnavailable"
                 (lit "503 backend unavailable"))
  /\ ~ raises_only_on_row_errors (cpython silent_repr) unreachable_warehouse.
Proof.
  split; [reflexivity|]. split; [reflexivity|].
  intros H.
  destruct (proj1 (H (f1_record (utcnow_isoformat unreachable_warehouse))))
    as (errors & Hcall & _).
  - eexists. reflexivity.
  - discriminate Hcall.
Qed.

(** C6 (amended): [insert_into_bigquery] raises a fault if and only if
    the insert call itself raises or returns a list of per-row errors
    that is not empty (no partial success: the one row is accepted, or
    the call fails); and when it raises while a notification is
    processed, the handler answers 500. *)
Theorem insert_raises_on_fault_or_row_errors (py : pylib) (svc : services) :
  (forall row : pyval,
      raises (insert_into_bigquery py svc row)
      <-> ((exists e, insert_rows_json svc (table_id svc) [row] = Raised e)
           \/ (exists errors,
                  insert_rows_json svc (table_id svc) [row] = Returned errors
                  /\ errors <> [])))
  /\ (forall (envelope data : pyval) (event : list (pystr * pyval))
             (content : pystr) (e : exn),
         carries envelope data ->
         decode_event py data = Returned (PyDict event) ->
         truthy (got "bucket" event) = true ->
         truthy (got "name" event) = true ->
         download_as_text svc (got "bucket" event) (got "name" event)
         = Returned content ->
         outcome (insert_into_bigquery py svc
                    (extract_metadata (got "name" event) (utcnow_isoformat svc) content))
         = Raised e ->
         outcome (index py svc envelope)
         = Returned (lit "Error: " ++ exn_message e, 500%Z)).
Proof.
  split.
  - intros row.
    destruct (insert_rows_json svc (table_id svc) [row]) as [[|err errs]|e] eqn:H.
    + rewrite (insert_accepted py svc row H). split.
      * intros [e He]. discriminate He.
      * intros [[e He] | (errors & He & Hne)]; [discriminate He|].
        injection He as <-. now contradiction Hne.
    + rewrite (insert_rejected py svc row err errs H). split.
      * intros _. right. exists (err :: errs). split; [reflexivity | discriminate].
      * intros _. eexists. reflexivity.
    + rewrite (insert_call_raises py svc row e H). split.
      * intros _. left. exists e. reflexivity.
      * intros _. exists e. reflexivity.
  - intros envelope data event content e Hc Hv Hb Hn Hfetch Hins.
    rewrite (index_processes py svc envelope data event Hc Hv Hb Hn).
    rewrite (process_file_fetched py svc _ _ content Hfetch).
    unfold outcome at 1 2. simpl snd. rewrite Hins. reflexivity.
Qed.

Lemma insert_raises_on_fault_or_row_errors_witness :
  raises (insert_into_bigquery (cpython silent_repr) rejecting_services
            (f1_record (utcnow_isoformat rejecting_services)))
  /\ raises (insert_into_bigquery (cpython silent_repr) unreachable_warehouse
               (f1_record (utcnow_isoformat unreachable_warehouse)))
  /\ outcome (index (cpython silent_repr) rejecting_services (envelope_of f1_payload))
     = Returned (lit "Error: BigQuery insert failed: ", 500%Z)
  /\ outcome (index (cpython silent_repr) unreachable_warehouse
                (envelope_of f1_payload))
     = Returned (lit "Error: 503 backend unavailable", 500%Z).
Proof.
  destruct (insert_raises_on_fault_or_row_errors (cpython silent_repr) rejecting_services)
    as [Hrejecting Hhandler].
  destruct (insert_raises_on_fault_or_row_errors (cpython silent_repr)
              unreachable_warehouse)
    as [Hunreachable Hhandler'].
  split; [|split; [|split]].
  - apply (proj2 (Hrejecting (f1_record (utcnow_isoformat rejecting_services)))).
    right. eexists. split; [reflexivity | discriminate].
  - apply (proj2 (Hunreachable (f1_record (utcnow_isoformat unreachable_warehouse)))).
    left. eexists. reflexivity.
  - apply (Hhandler (envelope_of f1_payload) _
             [(lit "bucket", PyStr (lit "b1")); (lit "name", PyStr (lit "f1.txt"))]
             (lit "hello world")
             (Exn "Exception" (lit "BigQuery insert failed: "))
             (carries_envelope_of f1_payload)).
    + apply decode_f1_payload.
    + reflexivity.
    + reflexivity.
    + reflexivity.
    + reflexivity.
  - apply (Hhandler' (envelope_of f1_payload) _
             [(lit "bucket", PyStr (lit "b1")); (lit "name", PyStr (lit "f1.txt"))]
             (lit "hello world")
             (Exn "google.api_core.exceptions.ServiceUnavailable"
                (lit "503 backend unavailable"))
             (carries_envelope_of f1_payload)).
    + apply decode_f1_payload.
    + reflexivity.
    + reflexivity.
    + reflexivity.
    + reflexivity.
Defined.

(** C2: for the envelope whose [message.data] is the base64 of the JSON
    object with [bucket] b1 and [name] f1.txt, when the object store
    gives the text [hello world] for (b1, f1.txt) (and the warehouse
    accepts the row), the record built has [filename] f1.txt,
    [word_count] 2, [content_snippet] [hello world] and the three fixed
    tags; the insert is called once, with that one row; and the handler
    answers 200 [OK]. *)
Theorem hello_world_scenario (repr_of : pyval -> pystr) (svc : services) :
  download_as_text svc (PyStr (lit "b1")) (PyStr (lit "f1.txt"))
  = Returned (lit "hello world") ->
  insert_rows_json svc (table_id svc) [f1_record (utcnow_isoformat svc)] = Returned [] ->
  extract_metadata (PyStr (lit "f1.txt")) (utcnow_isoformat svc) (lit "hello world")
  = f1_record (utcnow_isoformat svc)
  /\ inserts (trace (index (cpython repr_of) svc (envelope_of f1_payload)))
     = [InsertRows (table_id svc) [f1_record (utcnow_isoformat svc)]]
  /\ downstream (trace (index (cpython repr_of) svc (envelope_of f1_payload)))
     = [Download (PyStr (lit "b1")) (PyStr (lit "f1.txt"));
        InsertRows (table_id svc) [f1_record (utcnow_isoformat svc)]]
  /\ outcome (index (cpython repr_of) svc (envelope_of f1_payload))
     = Returned (lit "OK", 200%Z).
Proof.
  intros Hfetch Hinsert.
  split; [reflexivity|].
  rewrite (index_processes (cpython repr_of) svc _ _ _
             (carries_envelope_of f1_payload) (decode_f1_payload repr_of)
             eq_refl eq_refl).
  change (got "bucket" _) with (PyStr (lit "b1")).
  change (got "name" _) with (PyStr (lit "f1.txt")).
  rewrite (process_file_fetched (cpython repr_of) svc _ _ _ Hfetch).
  change (extract_metadata _ _ _) with (f1_record (utcnow_isoformat svc)).
  rewrite (insert_accepted (cpython repr_of) svc _ Hinsert).
  repeat split.
Qed.

Lemma hello_world_scenario_witness :
  extract_metadata (PyStr (lit "f1.txt")) (utcnow_isoformat hello_services)
    (lit "hello world")
  = f1_record (utcnow_isoformat hello_services)
  /\ inserts (trace (index (cpython silent_repr) hello_services (envelope_of f1_payload)))
     = [InsertRows (table_id hello_services)
          [f1_record (utcnow_isoformat hello_services)]]
  /\ downstream (trace (index (cpython silent_repr) hello_services
                           (envelope_of f1_payload)))
     = [Download (PyStr (lit "b1")) (PyStr (lit "f1.txt"));
        InsertRows (table_id hello_services)
          [f1_record (utcnow_isoformat hello_services)]]
  /\ outcome (index (cpython silent_repr) hello_services (envelope_of f1_payload))
     = Returned (lit "OK", 200%Z).
Proof.
  apply (hello_world_scenario silent_repr hello_services); reflexivity.
Defined.

(** The envelope of the scenario, written out. *)
Example envelope_of_f1_payload :
  envelope_of f1_payload
  = PyDict [(lit "message",
              PyDict [(lit "data",
                        PyStr (lit "eyJidWNrZXQiOiJiMSIsIm5hbWUiOiJmMS50eHQifQ=="))])].
Proof. vm_compute. reflexivity. Qed.

(* ================================================================= *)
(** ** The extracted record *)

(** C3: for every text, the record has [word_count] equal to the number
    of whitespace-separated tokens of the text, a non-negative integer,
    and [content_snippet] equal to the first 100 characters of the text
    when the text is longer than 100 and to the whole text otherwise; so
    the snippet is never longer than 100, and is the whole text whenever
    the text is at most 100 long. *)
Theorem extracted_word_count_and_snippet (file_name : pyval) (now content : pystr) :
  exists (word_count : Z) (snippet : pystr),
    field "word_count" (extract_metadata file_name now content) = Some (PyInt word_count)
    /\ word_count = Z.of_nat (token_count content)
    /\ (0 <= word_count)%Z
    /\ field "content_snippet" (extract_metadata file_name now content)
       = Some (PyStr snippet)
    /\ (100 < List.length content -> snippet = firstn 100 content)
    /\ (List.length content <= 100 -> snippet = content)
    /\ List.length snippet <= 100.
Proof.
  exists (Z.of_nat (List.length (split content))).
  exists (if Nat.ltb 100 (List.length content) then slice_to 100 content else content).
  split; [reflexivity|].
  split; [now rewrite split_length|].
  split; [apply Nat2Z.is_nonneg|].
  split; [reflexivity|].
  unfold slice_to.
  destruct (Nat.ltb 100 (List.length content)) eqn:Hlen.
  - apply Nat.ltb_lt in Hlen.
    split; [reflexivity|]. split; [lia|].
    rewrite length_firstn. lia.
  - apply Nat.ltb_ge in Hlen.
    split; [lia|]. split; [reflexivity | exact Hlen].
Qed.

(** C9: extraction is a function of the content where the content
    decides: for every text, two extractions of it give the same
    [word_count] and the same [content_snippet], whatever the time
    stamps; of the same file, the second record is the first with its
    [upload_timestamp] replaced. *)
Theorem extraction_depends_on_content_only
        (file1 file2 : pyval) (now1 now2 content : pystr) :
  field "word_count" (extract_metadata file1 now1 content)
  = field "word_count" (extract_metadata file2 now2 content)
  /\ field "content_snippet" (extract_metadata file1 now1 content)
     = field "content_snippet" (extract_metadata file2 now2 content)
  /\ (exists items,
         extract_metadata file1 now1 content = PyDict items
         /\ extract_metadata file1 now2 content
            = PyDict (dict_set (lit "upload_timestamp") (PyStr now2) items)).
Proof.
  split; [reflexivity|]. split; [reflexivity|].
  eexists. split; reflexivity.
Qed.

(* ================================================================= *)
(** ** Every request takes one of the paths *)

Lemma index_on_path (py : pylib) (svc : services) (envelope : pyval) (p : path) :
  takes py svc envelope p ->
  index py svc envelope = result_of py svc envelope p.
Proof.
  destruct p as [| |e|v| |b n e|b n content e|b n content err errs|b n content];
    simpl takes.
  - intros Hk. unfold index, result_of.
    destruct (truthy envelope); simpl negb; cbv iota; [|reflexivity].
    rewrite Hk. simpl negb. rewrite orb_true_r. reflexivity.
  - intros (items & m & -> & Hm & Hlacks).
    rewrite (index_with_message py svc items m Hm).
    assert (Hno : isinstance_dict m && key_in (lit "data") m = false).
    { destruct m as [| | | | | |fields]; try reflexivity.
      unfold key_in. now rewrite (Hlacks fields eq_refl). }
    rewrite Hno. reflexivity.
  - intros (data & Hc & Hf).
    exact (index_catches py svc envelope data [] e Hc
             (fun fields Hd => index_try_decode_raises py svc fields data e Hd Hf)).
  - intros (data & Hc & Hv & Hshape).
    exact (index_catches py svc envelope data [] _ Hc
             (fun fields Hd => index_try_not_an_object py svc fields data v Hd Hv Hshape)).
  - intros (data & event & Hc & Hv & Hfalsy).
    rewrite (index_completes py svc envelope data
               [Log WARNING (lit "Bucket or filename missing in event data.")]
               (Some (lit "OK", 200%Z)) Hc); [reflexivity|].
    intros fields Hd. rewrite (index_try_event py svc fields data event Hd Hv).
    cbv zeta.
    assert (Hguard : negb (truthy (got "bucket" event))
                     || negb (truthy (got "name" event)) = true).
    { destruct Hfalsy as [H|H]; rewrite H; simpl; [reflexivity | apply orb_true_r]. }
    rewrite Hguard. reflexivity.
  - intros ((data & event & Hc & Hv & <- & <- & Hb & Hn) & Hfetch).
    rewrite (index_processes py svc envelope data event Hc Hv Hb Hn).
    rewrite (process_file_fetch_raises py svc _ _ e Hfetch). reflexivity.
  - intros ((data & event & Hc & Hv & <- & <- & Hb & Hn) & Hfetch & Hins).
    rewrite (index_processes py svc envelope data event Hc Hv Hb Hn).
    rewrite (process_file_fetched py svc _ _ content Hfetch).
    rewrite (insert_call_raises py svc _ e Hins). reflexivity.
  - intros ((data & event & Hc & Hv & <- & <- & Hb & Hn) & Hfetch & Hins).
    rewrite (index_processes py svc envelope data event Hc Hv Hb Hn).
    rewrite (process_file_fetched py svc _ _ content Hfetch).
    rewrite (insert_rejected py svc _ err errs Hins). reflexivity.
  - intros ((data & event & Hc & Hv & <- & <- & Hb & Hn) & Hfetch & Hins).
    rewrite (index_processes py svc envelope data event Hc Hv Hb Hn).
    rewrite (process_file_fetched py svc _ _ content Hfetch).
    rewrite (insert_accepted py svc _ Hins). reflexivity.
Qed.

(** Every envelope has no [message], or a [message] that lacks [data],
    or carries some data. *)
Lemma envelope_cases (envelope : pyval) :
  key_in (lit "message") envelope = false
  \/ (exists items m,
         envelope = PyDict items /\ assoc (lit "message") items = Some m /\ lacks_data m)
  \/ (exists data, carries envelope data).
Proof.
  destruct envelope as [| | | | | |items]; try (left; reflexivity).
  unfold key_in.
  destruct (assoc (lit "message") items) as [m|] eqn:Hm; [|left; reflexivity].
  right.
  destruct m as [| | | | | |fields];
    try (left; exists items; eexists; repeat split;
         [exact Hm | intros fields E; discriminate E]).
  destruct (assoc (lit "data") fields) as [data|] eqn:Hd.
  - right. exists data, items, fields. repeat split; assumption.
  - left. exists items, (PyDict fields). repeat split; [exact Hm|].
    intros fields' E. injection E as <-. exact Hd.
Qed.

Lemma some_path (py : pylib) (svc : services) (envelope : pyval) :
  exists p, takes py svc envelope p.
Proof.
  destruct (envelope_cases envelope) as [Hk | [Hnd | (data & Hc)]].
  - exists No_message. exact Hk.
  - exists No_data. exact Hnd.
  - destruct (decode_event py data) as [v|e] eqn:Hv.
    2:{ exists (Decode_fault e), data. split; assumption. }
    destruct v as [| | | | | |event];
      try (eexists (Not_an_object _), data;
           split; [exact Hc | split; [exact Hv | reflexivity]]).
    destruct (truthy (got "bucket" event)) eqn:Hb.
    2:{ exists Ignored_event, data, event. repeat split; auto. }
    destruct (truthy (got "name" event)) eqn:Hn.
    2:{ exists Ignored_event, data, event. repeat split; auto. }
    assert (Hact : actionable py envelope (got "bucket" event) (got "name" event)).
    { exists data, event. repeat split; assumption. }
    destruct (download_as_text svc (got "bucket" event) (got "name" event))
      as [content|e] eqn:Hfetch.
    2:{ exists (Fetch_fault (got "bucket" event) (got "name" event) e).
        split; assumption. }
    destruct (insert_rows_json svc (table_id svc)
                [extract_metadata (got "name" event) (utcnow_isoformat svc) content])
      as [[|err errs]|e] eqn:Hins.
    + exists (Row_stored (got "bucket" event) (got "name" event) content).
      repeat split; assumption.
    + exists (Row_rejected (got "bucket" event) (got "name" event) content err errs).
      repeat split; assumption.
    + exists (Insert_fault (got "bucket" event) (got "name" event) content e).
      repeat split; assumption.
Qed.

Lemma index_takes_a_path (py : pylib) (svc : services) (envelope : pyval) :
  exists p, takes py svc envelope p
            /\ index py svc envelope = result_of py svc envelope p.
Proof.
  destruct (some_path py svc envelope) as [p Hp].
  exists p. split; [exact Hp | exact (index_on_path py svc envelope p Hp)].
Qed.

(* ================================================================= *)
(** ** The responses *)

(** On every value that [request.get_json()] returned, [index] ends
    with a response of one of three kinds: 200 with the body [OK], 400
    with a body that starts with [Bad Request: ], or 500 with a body
    that starts with [Error: ]. *)
Lemma response_is_ok_bad_request_or_error
        (py : pylib) (svc : services) (envelope : pyval) :
  exists (text : pystr) (code : Z),
    outcome (index py svc envelope) = Returned (text, code)
    /\ ((code = 200%Z /\ text = lit "OK")
        \/ (code = 400%Z /\ exists detail, text = lit "Bad Request: " ++ detail)
        \/ (code = 500%Z /\ exists detail, text = lit "Error: " ++ detail)).
Proof.
  destruct (index_takes_a_path py svc envelope) as (p & _ & ->).
  destruct p; simpl; do 2 eexists; (split; [reflexivity|]);
    first [ left; split; reflexivity
          | right; left; split; [reflexivity | eexists; reflexivity]
          | right; right; split; [reflexivity | eexists; reflexivity] ].
Qed.

(** X1: a fault leaves [index] exactly when [request.get_json()] on
    line 27 raises it, and then nothing was printed, logged, fetched or
    inserted.  On every value that [get_json] returns, whatever the
    library and the services do, [index] returns a response, of one of
    three kinds: 200 with the body [OK], 400 with a body that starts
    with [Bad Request: ], or 500 with a body that starts with
    [Error: ]. *)
Theorem only_get_json_faults_leave_index
        (py : pylib) (svc : services) (got_json : result pyval) :
  (raises (index_on_request py svc got_json) <-> exists e, got_json = Raised e)
  /\ (forall e, got_json = Raised e ->
      index_on_request py svc got_json = ([], Raised e))
  /\ (forall envelope, got_json = Returned envelope ->
      exists (text : pystr) (code : Z),
        outcome (index_on_request py svc got_json) = Returned (text, code)
        /\ ((code = 200%Z /\ text = lit "OK")
            \/ (code = 400%Z /\ exists detail, text = lit "Bad Request: " ++ detail)
            \/ (code = 500%Z /\ exists detail, text = lit "Error: " ++ detail))).
Proof.
  unfold index_on_request.
  destruct got_json as [envelope|e].
  - rewrite bind_lift_returned.
    destruct (response_is_ok_bad_request_or_error py svc envelope)
      as (text & code & Hout & Hkind).
    split; [|split].
    + split.
      * intros [e He]. rewrite Hout in He. discriminate He.
      * intros [e He]. discriminate He.
    + intros e He. discriminate He.
    + intros envelope' He. injection He as <-.
      exists text, code. split; assumption.
  - split; [|split].
    + split.
      * intros _. exists e. reflexivity.
      * intros _. exists e. reflexivity.
    + intros e' He. injection He as <-. reflexivity.
    + intros envelope He. discriminate He.
Qed.

(** X2: the handler answers 400 exactly when the envelope is not a JSON
    object that holds the key [message].  Then the body says
    [no Pub/Sub message received] for an envelope that counts as false
    ([null], [{}], [[]], [0], the empty string) and
    [invalid Pub/Sub message format] for any other, and the only effect
    is one line on standard output. *)
Theorem rejected_exactly_without_message
        (py : pylib) (svc : services) (envelope : pyval) :
  ((exists text, outcome (index py svc envelope) = Returned (text, 400%Z))
   <-> key_in (lit "message") envelope = false)
  /\ (key_in (lit "message") envelope = false ->
      index py svc envelope
      = (let msg := if truthy envelope then lit "invalid Pub/Sub message format"
                    else lit "no Pub/Sub message received" in
         ([Stdout (lit "error: " ++ msg)],
          Returned (lit "Bad Request: " ++ msg, 400%Z)))).
Proof.
  split.
  - split.
    + intros [text Htext].
      destruct (index_takes_a_path py svc envelope) as (p & Hp & Hrun).
      rewrite Hrun in Htext.
      destruct p; simpl in Hp, Htext; try exact Hp; discriminate Htext.
    + intros Hk. rewrite (index_on_path py svc envelope No_message Hk).
      eexists. reflexivity.
  - intros Hk. exact (index_on_path py svc envelope No_message Hk).
Qed.

Lemma rejected_exactly_without_message_witness :
  index (cpython silent_repr) hello_services (PyList [PyInt 1])
  = ([Stdout (lit "error: invalid Pub/Sub message format")],
     Returned (lit "Bad Request: invalid Pub/Sub message format", 400%Z))
  /\ index (cpython silent_repr) hello_services (PyDict [])
     = ([Stdout (lit "error: no Pub/Sub message received")],
        Returned (lit "Bad Request: no Pub/Sub message received", 400%Z)).
Proof.
  split.
  - apply (proj2 (rejected_exactly_without_message (cpython silent_repr) hello_services
                    (PyList [PyInt 1]))).
    reflexivity.
  - apply (proj2 (rejected_exactly_without_message (cpython silent_repr) hello_services
                    (PyDict []))).
    reflexivity.
Defined.

(** X3: of an envelope with a [message] that has [data], only the data
    matters: two envelopes that carry the same data get the same
    response and cause the same events, whatever other keys the
    envelopes and their messages hold. *)
Theorem only_the_data_matters
        (py : pylib) (svc : services) (envelope1 envelope2 data : pyval) :
  carries envelope1 data ->
  carries envelope2 data ->
  index py svc envelope1 = index py svc envelope2.
Proof.
  intros H1 H2.
  destruct (index_with_data py svc _ _ H1) as (fields1 & Hd1 & ->).
  destruct (index_with_data py svc _ _ H2) as (fields2 & Hd2 & ->).
  assert (Hsame : index_try py svc (PyDict fields1) = index_try py svc (PyDict fields2)).
  { unfold index_try, py_getitem. rewrite Hd1, Hd2. reflexivity. }
  rewrite Hsame. reflexivity.
Qed.

Lemma only_the_data_matters_witness :
  index (cpython silent_repr) hello_services (envelope_of f1_payload)
  = index (cpython silent_repr) hello_services
      (PyDict [(lit "subscription", PyStr (lit "projects/p/subscriptions/s"));
               (lit "message",
                 PyDict [(lit "messageId", PyStr (lit "42"));
                         (lit "data",
                           PyStr (Base64.b64encode (Utf8.encode f1_payload)));
                         (lit "attributes", PyDict [])])]).
Proof.
  apply (only_the_data_matters (cpython silent_repr) hello_services _ _
           (PyStr (Base64.b64encode (Utf8.encode f1_payload)))).
  - apply carries_envelope_of.
  - do 2 eexists. repeat split.
Defined.

(** X4: of a storage event, only [bucket] and [name] matter: two
    envelopes whose data decode to JSON objects with the same [bucket]
    and the same [name] get the same response and cause the same events;
    other fields of the event, and the order of its fields, are
    ignored. *)
Theorem only_bucket_and_name_matter
        (py : pylib) (svc : services) (envelope1 envelope2 data1 data2 : pyval)
        (event1 event2 : list (pystr * pyval)) :
  carries envelope1 data1 ->
  carries envelope2 data2 ->
  decode_event py data1 = Returned (PyDict event1) ->
  decode_event py data2 = Returned (PyDict event2) ->
  got "bucket" event1 = got "bucket" event2 ->
  got "name" event1 = got "name" event2 ->
  index py svc envelope1 = index py svc envelope2.
Proof.
  intros H1 H2 Hv1 Hv2 Hb Hn.
  destruct (index_with_data py svc _ _ H1) as (fields1 & Hd1 & ->).
  destruct (index_with_data py svc _ _ H2) as (fields2 & Hd2 & ->).
  rewrite (index_try_event py svc fields1 data1 event1 Hd1 Hv1).
  rewrite (index_try_event py svc fields2 data2 event2 Hd2 Hv2).
  cbv zeta. rewrite Hb, Hn. reflexivity.
Qed.

Lemma only_bucket_and_name_matter_witness :
  index (cpython silent_repr) hello_services (envelope_of f1_payload)
  = index (cpython silent_repr) hello_services (envelope_of f1_payload_with_size).
Proof.
  apply (only_bucket_and_name_matter (cpython silent_repr) hello_services _ _ _ _
           [(lit "bucket", PyStr (lit "b1")); (lit "name", PyStr (lit "f1.txt"))]
           [(lit "name", PyStr (lit "f1.txt")); (lit "size", PyStr (lit "11"));
            (lit "bucket", PyStr (lit "b1"))]
           (carries_envelope_of f1_payload)
           (carries_envelope_of f1_payload_with_size)).
  - vm_compute. reflexivity.
  - vm_compute. reflexivity.
  - reflexivity.
  - reflexivity.
Defined.

(* ================================================================= *)
(** ** The pipeline, for every event *)

(** X5: for every event with a bucket and a name, when the object store
    gives the object's text and the warehouse reports no error for the
    row, the handler answers 200 [OK]; it fetched once, inserted once
    the one record extracted from that text, with the event's name as
    [filename], and wrote no error record. *)
Theorem stored_row_gives_200 (py : pylib) (svc : services)
        (envelope b n : pyval) (content : pystr) :
  actionable py envelope b n ->
  download_as_text svc b n = Returned content ->
  insert_rows_json svc (table_id svc)
    [extract_metadata n (utcnow_isoformat svc) content] = Returned [] ->
  outcome (index py svc envelope) = Returned (lit "OK", 200%Z)
  /\ downstream (trace (index py svc envelope))
     = [Download b n;
        InsertRows (table_id svc) [extract_metadata n (utcnow_isoformat svc) content]]
  /\ field "filename" (extract_metadata n (utcnow_isoformat svc) content) = Some n
  /\ existsb is_error_record (trace (index py svc envelope)) = false.
Proof.
  intros Hact Hfetch Hins.
  rewrite (index_on_path py svc envelope (Row_stored b n content)
             (conj Hact (conj Hfetch Hins))).
  repeat split.
Qed.

Lemma stored_row_gives_200_witness :
  outcome (index (cpython silent_repr) hello_services
             (envelope_of f1_payload_with_size))
  = Returned (lit "OK", 200%Z)
  /\ downstream (trace (index (cpython silent_repr) hello_services
                           (envelope_of f1_payload_with_size)))
     = [Download (PyStr (lit "b1")) (PyStr (lit "f1.txt"));
        InsertRows (table_id hello_services)
          [extract_metadata (PyStr (lit "f1.txt")) (utcnow_isoformat hello_services)
             (lit "hello world")]]
  /\ field "filename"
       (extract_metadata (PyStr (lit "f1.txt")) (utcnow_isoformat hello_services)
          (lit "hello world"))
     = Some (PyStr (lit "f1.txt"))
  /\ existsb is_error_record
       (trace (index (cpython silent_repr) hello_services
                 (envelope_of f1_payload_with_size))) = false.
Proof.
  apply (stored_row_gives_200 (cpython silent_repr) hello_services).
  - exists (PyStr (Base64.b64encode (Utf8.encode f1_payload_with_size))).
    exists [(lit "name", PyStr (lit "f1.txt")); (lit "size", PyStr (lit "11"));
            (lit "bucket", PyStr (lit "b1"))].
    split; [apply carries_envelope_of|].
    split; [vm_compute; reflexivity|].
    repeat split.
  - reflexivity.
  - reflexivity.
Defined.

(** X6: a fault raised by the insert call itself (the warehouse cannot
    be reached, the table does not exist) is treated like a rejected
    row: the handler answers 500 with the fault's message in the body,
    after one fetch and one insert attempt. *)
Theorem warehouse_fault_gives_500 (py : pylib) (svc : services)
        (envelope b n : pyval) (content : pystr) (e : exn) :
  actionable py envelope b n ->
  download_as_text svc b n = Returned content ->
  insert_rows_json svc (table_id svc)
    [extract_metadata n (utcnow_isoformat svc) content] = Raised e ->
  outcome (index py svc envelope) = Returned (lit "Error: " ++ exn_message e, 500%Z)
  /\ downstream (trace (index py svc envelope))
     = [Download b n;
        InsertRows (table_id svc) [extract_metadata n (utcnow_isoformat svc) content]].
Proof.
  intros Hact Hfetch Hins.
  rewrite (index_on_path py svc envelope (Insert_fault b n content e)
             (conj Hact (conj Hfetch Hins))).
  split; reflexivity.
Qed.

Lemma warehouse_fault_gives_500_witness :
  outcome (index (cpython silent_repr) unreachable_warehouse (envelope_of f1_payload))
  = Returned (lit "Error: 503 backend unavailable", 500%Z)
  /\ downstream (trace (index (cpython silent_repr) unreachable_warehouse
                           (envelope_of f1_payload)))
     = [Download (PyStr (lit "b1")) (PyStr (lit "f1.txt"));
        InsertRows (table_id unreachable_warehouse)
          [extract_metadata (PyStr (lit "f1.txt"))
             (utcnow_isoformat unreachable_warehouse) (lit "hello world")]].
Proof.
  apply (warehouse_fault_gives_500 (cpython silent_repr) unreachable_warehouse _ _ _ _
           (Exn "google.api_core.exceptions.ServiceUnavailable"
              (lit "503 backend unavailable"))).
  - exists (PyStr (Base64.b64encode (Utf8.encode f1_payload))).
    exists [(lit "bucket", PyStr (lit "b1")); (lit "name", PyStr (lit "f1.txt"))].
    split; [apply carries_envelope_of|].
    split; [apply decode_f1_payload|].
    repeat split.
  - reflexivity.
  - reflexivity.
Defined.

(** X7: when the warehouse reports errors for the row, the body of the
    500 response is [Error: BigQuery insert failed: ] followed by the
    [repr] of the error list, and the failure is logged at level ERROR
    three times, in this order: the error list by
    [insert_into_bigquery], the file by [process_file], the message by
    [index]. *)
Theorem rejected_row_is_reported (py : pylib) (svc : services)
        (envelope b n : pyval) (content : pystr) (err : pyval) (errs : list pyval) :
  actionable py envelope b n ->
  download_as_text svc b n = Returned content ->
  insert_rows_json svc (table_id svc)
    [extract_metadata n (utcnow_isoformat svc) content] = Returned (err :: errs) ->
  outcome (index py svc envelope)
  = Returned (lit "Error: BigQuery insert failed: " ++ repr py (PyList (err :: errs)),
              500%Z)
  /\ filter is_error_record (trace (index py svc envelope))
     = [Log ERROR (lit "Encountered errors while inserting rows: "
                     ++ repr py (PyList (err :: errs)));
        Log ERROR (lit "Failed to process file " ++ fmt py n
                     ++ lit ": BigQuery insert failed: "
                     ++ repr py (PyList (err :: errs)));
        Log ERROR (lit "Error processing message: BigQuery insert failed: "
                     ++ repr py (PyList (err :: errs)))].
Proof.
  intros Hact Hfetch Hins.
  rewrite (index_on_path py svc envelope (Row_rejected b n content err errs)
             (conj Hact (conj Hfetch Hins))).
  split; reflexivity.
Qed.

Lemma rejected_row_is_reported_witness :
  outcome (index (cpython silent_repr) rejecting_services (envelope_of f1_payload))
  = Returned (lit "Error: BigQuery insert failed: ", 500%Z)
  /\ filter is_error_record
       (trace (index (cpython silent_repr) rejecting_services (envelope_of f1_payload)))
     = [Log ERROR (lit "Encountered errors while inserting rows: ");
        Log ERROR (lit "Failed to process file f1.txt: BigQuery insert failed: ");
        Log ERROR (lit "Error processing message: BigQuery insert failed: ")].
Proof.
  apply (rejected_row_is_reported (cpython silent_repr) rejecting_services
           (envelope_of f1_payload) (PyStr (lit "b1")) (PyStr (lit "f1.txt"))
           (lit "hello world")
           (PyDict [(lit "index", PyInt 0);
                    (lit "errors",
                      PyList [PyDict [(lit "reason", PyStr (lit "invalid"))]])])
           []).
  - exists (PyStr (Base64.b64encode (Utf8.encode f1_payload))).
    exists [(lit "bucket", PyStr (lit "b1")); (lit "name", PyStr (lit "f1.txt"))].
    split; [apply carries_envelope_of|].
    split; [apply decode_f1_payload|].
    repeat split.
  - reflexivity.
  - reflexivity.
Defined.

(* ================================================================= *)
(** ** What the handler never does *)

(** X8: for every request, the calls that leave the process are none,
    or one fetch, or one fetch followed by one insert.  A fetch is made
    only for an event with a bucket and a name, and for exactly those;
    an insert is made only after the fetch returned, into the configured
    table, with the one record extracted from the fetched text. *)
Theorem downstream_calls_are_disciplined
        (py : pylib) (svc : services) (envelope : pyval) :
  downstream (trace (index py svc envelope)) = []
  \/ exists b n,
      actionable py envelope b n
      /\ ((exists e,
              download_as_text svc b n = Raised e
              /\ downstream (trace (index py svc envelope)) = [Download b n])
          \/ (exists content,
                 download_as_text svc b n = Returned content
                 /\ downstream (trace (index py svc envelope))
                    = [Download b n;
                       InsertRows
                         (project svc ++ lit "." ++ BQ_DATASET svc ++ lit "."
                            ++ BQ_TABLE svc)
                         [extract_metadata n (utcnow_isoformat svc) content]])).
Proof.
  destruct (index_takes_a_path py svc envelope) as (p & Hp & ->).
  destruct p as [| |e|v| |b n e|b n content e|b n content err errs|b n content];
    simpl in Hp; try (left; reflexivity); right; exists b, n.
  - destruct Hp as [Hact Hfetch]. split; [exact Hact|].
    left. exists e. split; [exact Hfetch | reflexivity].
  - destruct Hp as (Hact & Hfetch & _). split; [exact Hact|].
    right. exists content. split; [exact Hfetch | reflexivity].
  - destruct Hp as (Hact & Hfetch & _). split; [exact Hact|].
    right. exists content. split; [exact Hfetch | reflexivity].
  - destruct Hp as (Hact & Hfetch & _). split; [exact Hact|].
    right. exists content. split; [exact Hfetch | reflexivity].
Qed.

(** X9: a failure is never silent and never invented: the status is 500
    exactly when the request wrote a log record at level ERROR, and then
    the last record is [Error processing message: ] followed by the very
    message that follows [Error: ] in the body. *)
Theorem failure_is_logged (py : pylib) (svc : services) (envelope : pyval) :
  exists (text : pystr) (code : Z),
    outcome (index py svc envelope) = Returned (text, code)
    /\ (code = 500%Z
        <-> existsb is_error_record (trace (index py svc envelope)) = true)
    /\ (code = 500%Z ->
        exists msg,
          text = lit "Error: " ++ msg
          /\ last (trace (index py svc envelope)) (Stdout [])
             = Log ERROR (lit "Error processing message: " ++ msg)).
Proof.
  destruct (index_takes_a_path py svc envelope) as (p & _ & ->).
  destruct p; simpl; do 2 eexists; (split; [reflexivity|]);
    (split; [split; intros H; first [reflexivity | discriminate H]|]);
    intros H; first [discriminate H | eexists; split; reflexivity].
Qed.

(** X10: a 200 after the object store was contacted means the row was
    stored: if the handler answers 200 and made a fetch, then the fetch
    returned a text, the record extracted from it was inserted, and the
    warehouse reported no error for it.  So the notification is never
    acknowledged after a failed fetch or a failed insert. *)
Theorem ok_after_fetch_means_stored (py : pylib) (svc : services)
        (envelope : pyval) (text : pystr) :
  outcome (index py svc envelope) = Returned (text, 200%Z) ->
  existsb is_fetch (trace (index py svc envelope)) = true ->
  exists b n content,
    actionable py envelope b n
    /\ download_as_text svc b n = Returned content
    /\ insert_rows_json svc (table_id svc)
         [extract_metadata n (utcnow_isoformat svc) content] = Returned []
    /\ inserts (trace (index py svc envelope))
       = [InsertRows (table_id svc)
            [extract_metadata n (utcnow_isoformat svc) content]].
Proof.
  destruct (index_takes_a_path py svc envelope) as (p & Hp & ->).
  destruct p as [| |e|v| |b n e|b n content e|b n content err errs|b n content];
    simpl; intros Hok Hfetched; try discriminate Hok; try discriminate Hfetched.
  destruct Hp as (Hact & Hfetch & Hins).
  exists b, n, content. repeat split; assumption.
Qed.

Lemma ok_after_fetch_means_stored_witness :
  exists b n content,
    actionable (cpython silent_repr) (envelope_of f1_payload) b n
    /\ download_as_text hello_services b n = Returned content
    /\ insert_rows_json hello_services (table_id hello_services)
         [extract_metadata n (utcnow_isoformat hello_services) content] = Returned []
    /\ inserts (trace (index (cpython silent_repr) hello_services
                         (envelope_of f1_payload)))
       = [InsertRows (table_id hello_services)
            [extract_metadata n (utcnow_isoformat hello_services) content]].
Proof.
  apply (ok_after_fetch_means_stored (cpython silent_repr) hello_services
           (envelope_of f1_payload) (lit "OK")).
  - vm_compute. reflexivity.
  - vm_compute. reflexivity.
Defined.

(** X11: [process_file] hands on the fault it caught, unchanged, after
    one log record that names the file and the fault: it raises [e]
    exactly when the fetch raised [e] or, the fetch having returned,
    [insert_into_bigquery] raised [e]; and it returns exactly when the
    fetch returned and the warehouse reported no error. *)
Theorem process_file_hands_faults_on
        (py : pylib) (svc : services) (bucket_name file_name : pyval) :
  (forall e,
      outcome (process_file py svc bucket_name file_name) = Raised e
      <-> (download_as_text svc bucket_name file_name = Raised e
           \/ exists content,
               download_as_text svc bucket_name file_name = Returned content
               /\ outcome (insert_into_bigquery py svc
                             (extract_metadata file_name (utcnow_isoformat svc) content))
                  = Raised e))
  /\ (forall e,
         outcome (process_file py svc bucket_name file_name) = Raised e ->
         last (trace (process_file py svc bucket_name file_name)) (Stdout [])
         = Log ERROR (lit "Failed to process file " ++ fmt py file_name
                        ++ lit ": " ++ exn_message e))
  /\ (outcome (process_file py svc bucket_name file_name) = Returned tt
      <-> exists content,
          download_as_text svc bucket_name file_name = Returned content
          /\ insert_rows_json svc (table_id svc)
               [extract_metadata file_name (utcnow_isoformat svc) content]
             = Returned []).
Proof.
  destruct (download_as_text svc bucket_name file_name) as [content|e0] eqn:Hfetch.
  - rewrite (process_file_fetched py svc _ _ content Hfetch).
    set (row := extract_metadata file_name (utcnow_isoformat svc) content).
    destruct (insert_rows_json svc (table_id svc) [row]) as [[|err errs]|e1] eqn:Hins.
    + rewrite (insert_accepted py svc row Hins). simpl.
      repeat split; try discriminate.
      * intros [H | (c & Hc & H)]; [discriminate H|].
        injection Hc as <-. fold row in H.
        rewrite (insert_accepted py svc row Hins) in H. discriminate H.
      * intros _. exists content. split; [reflexivity | exact Hins].
    + rewrite (insert_rejected py svc row err errs Hins). simpl.
      repeat split; try discriminate.
      * intros H. right. exists content. split; [reflexivity|].
        fold row. rewrite (insert_rejected py svc row err errs Hins). exact H.
      * intros [H | (c & Hc & H)]; [discriminate H|].
        injection Hc as <-. fold row in H.
        rewrite (insert_rejected py svc row err errs Hins) in H. exact H.
      * intros e H. injection H as <-. reflexivity.
      * intros (c & Hc & H). injection Hc as <-. fold row in H.
        rewrite Hins in H. discriminate H.
    + rewrite (insert_call_raises py svc row e1 Hins). simpl.
      repeat split; try discriminate.
      * intros H. right. exists content. split; [reflexivity|].
        fold row. rewrite (insert_call_raises py svc row e1 Hins). exact H.
      * intros [H | (c & Hc & H)]; [discriminate H|].
        injection Hc as <-. fold row in H.
        rewrite (insert_call_raises py svc row e1 Hins) in H. exact H.
      * intros e H. injection H as <-. reflexivity.
      * intros (c & Hc & H). injection Hc as <-. fold row in H.
        rewrite Hins in H. discriminate H.
  - rewrite (process_file_fetch_raises py svc _ _ e0 Hfetch). simpl.
    repeat split; try discriminate.
    + intros H. left. injection H as <-. reflexivity.
    + intros [H | (c & Hc & _)]; [injection H as <-; reflexivity | discriminate Hc].
    + intros e H. injection H as <-. reflexivity.
    + intros (c & Hc & _). discriminate Hc.
Qed.

(* ================================================================= *)
(** ** More on the extracted record *)

Lemma token_starts_none (s : pystr) :
  token_starts true s = 0 <-> forallb isspace s = true.
Proof.
  induction s as [|c s IH]; simpl; [tauto|].
  destruct (isspace c); simpl; [exact IH|].
  split; discriminate.
Qed.

Lemma token_starts_bound (after_space : bool) (s : pystr) :
  2 * token_starts after_space s
  <= List.length s + (if after_space then 1 else 0).
Proof.
  revert after_space; induction s as [|c s IH]; intros after_space; simpl; [lia|].
  specialize (IH (isspace c)).
  destruct (isspace c), after_space; simpl in *; lia.
Qed.

Lemma token_starts_app (after_space : bool) (a b : pystr) (w : char) :
  isspace w = true ->
  token_starts after_space (a ++ w :: b)
  = token_starts after_space a + token_starts true b.
Proof.
  intros Hw. revert after_space; induction a as [|c a IH]; intros after_space; simpl.
  - rewrite Hw. reflexivity.
  - rewrite IH. lia.
Qed.

Lemma token_starts_trailing (after_space : bool) (a ws : pystr) :
  forallb isspace ws = true ->
  token_starts after_space (a ++ ws) = token_starts after_space a.
Proof.
  destruct ws as [|w ws]; simpl; [now rewrite app_nil_r|].
  rewrite andb_true_iff. intros [Hw Hws].
  rewrite (token_starts_app after_space a ws w Hw).
  apply token_starts_none in Hws. lia.
Qed.

Lemma lstrip_parts (s : pystr) :
  exists ws, s = ws ++ lstrip s /\ forallb isspace ws = true.
Proof.
  induction s as [|c s (ws & Heq & Hws)]; simpl.
  - exists []. split; reflexivity.
  - destruct (isspace c) eqn:Hc.
    + exists (c :: ws). simpl. rewrite Hc, Hws. split; [now f_equal | reflexivity].
    + exists []. split; reflexivity.
Qed.

Lemma token_count_lstrip (s : pystr) : token_count (lstrip s) = token_count s.
Proof.
  unfold token_count. induction s as [|c s IH]; simpl; [reflexivity|].
  destruct (isspace c) eqn:Hc; simpl; [exact IH|].
  now rewrite Hc.
Qed.

Lemma token_count_rstrip (s : pystr) : token_count (rstrip s) = token_count s.
Proof.
  unfold rstrip, token_count.
  destruct (lstrip_parts (rev s)) as (ws & Heq & Hws).
  assert (Hs : s = rev (lstrip (rev s)) ++ rev ws).
  { rewrite <- rev_app_distr, <- Heq. now rewrite rev_involutive. }
  rewrite Hs at 2.
  rewrite token_starts_trailing; [reflexivity|].
  rewrite forallb_forall in *. intros x Hx. apply Hws. now apply in_rev.
Qed.

(** X12: [word_count] is 0 exactly for a text with no character other
    than whitespace (the empty text included), and it is never more than
    half the length of the text, rounded up. *)
Theorem word_count_zero_and_bound (file_name : pyval) (now content : pystr) :
  exists k : nat,
    field "word_count" (extract_metadata file_name now content)
    = Some (PyInt (Z.of_nat k))
    /\ (k = 0 <-> forallb isspace content = true)
    /\ 2 * k <= List.length content + 1.
Proof.
  exists (List.length (split content)).
  split; [reflexivity|].
  rewrite split_length. unfold token_count.
  split; [apply token_starts_none | apply (token_starts_bound true)].
Qed.

(** X13: the word count of two texts joined by a whitespace character is
    the sum of their word counts. *)
Theorem word_count_adds_across_whitespace
        (file_name : pyval) (now a b : pystr) (w : char) :
  isspace w = true ->
  exists ka kb : nat,
    field "word_count" (extract_metadata file_name now a) = Some (PyInt (Z.of_nat ka))
    /\ field "word_count" (extract_metadata file_name now b)
       = Some (PyInt (Z.of_nat kb))
    /\ field "word_count" (extract_metadata file_name now (a ++ w :: b))
       = Some (PyInt (Z.of_nat (ka + kb))).
Proof.
  intros Hw.
  exists (List.length (split a)), (List.length (split b)).
  split; [reflexivity|]. split; [reflexivity|].
  change (field "word_count" (extract_metadata file_name now (a ++ w :: b)))
    with (Some (PyInt (Z.of_nat (List.length (split (a ++ w :: b)))))).
  rewrite !split_length. unfold token_count.
  now rewrite (token_starts_app true a b w Hw).
Qed.

Lemma word_count_adds_across_whitespace_witness :
  exists ka kb : nat,
    field "word_count" (extract_metadata PyNone [] (lit "hello world"))
    = Some (PyInt (Z.of_nat ka))
    /\ field "word_count" (extract_metadata PyNone [] (lit "of  words"))
       = Some (PyInt (Z.of_nat kb))
    /\ field "word_count"
         (extract_metadata PyNone [] (lit "hello world" ++ 10%N :: lit "of  words"))
       = Some (PyInt (Z.of_nat (ka + kb))).
Proof.
  apply (word_count_adds_across_whitespace PyNone [] (lit "hello world")
           (lit "of  words") 10%N).
  reflexivity.
Defined.

(** X14: whitespace at the start and at the end of the text does not
    change [word_count]: the text and its [strip] have the same one. *)
Theorem word_count_ignores_surrounding_whitespace
        (file_name : pyval) (now content : pystr) :
  field "word_count" (extract_metadata file_name now (strip content))
  = field "word_count" (extract_metadata file_name now content).
Proof.
  change (Some (PyInt (Z.of_nat (List.length (split (strip content)))))
          = Some (PyInt (Z.of_nat (List.length (split content))))).
  rewrite !split_length. unfold strip.
  now rewrite token_count_rstrip, token_count_lstrip.
Qed.

(** X15: [content_snippet] is [content[:100]] for every text, so the
    test on the length in line 81 changes nothing; the snippet is a
    prefix of the text, of length the smaller of 100 and the length of
    the text. *)
Theorem snippet_is_the_first_hundred (file_name : pyval) (now content : pystr) :
  field "content_snippet" (extract_metadata file_name now content)
  = Some (PyStr (slice_to 100 content))
  /\ (exists rest, content = slice_to 100 content ++ rest)
  /\ List.length (slice_to 100 content) = Nat.min 100 (List.length content).
Proof.
  unfold slice_to. split; [|split].
  - change (Some (PyStr (if Nat.ltb 100 (List.length content)
                         then firstn 100 content else content))
            = Some (PyStr (firstn 100 content))).
    destruct (Nat.ltb 100 (List.length content)) eqn:Hlen; [reflexivity|].
    apply Nat.ltb_ge in Hlen. now rewrite firstn_all2.
  - exists (skipn 100 content). symmetry. apply firstn_skipn.
  - apply length_firstn.
Qed.

(* ================================================================= *)
(** ** The configured table *)

Lemma environ_get_reads (environ : list (pystr * pystr)) (name default v : pystr) :
  reads environ name default v -> environ_get environ name default = v.
Proof.
  intros [Hunset | before after v' -> Hfirst].
  - induction environ as [|[k x] rest IH]; simpl; [reflexivity|].
    destruct (pystr_eqb name k) eqn:E.
    + apply pystr_eqb_eq in E. subst k. exfalso. apply (Hunset x). now left.
    + apply IH. intros y Hy. apply (Hunset y). now right.
  - induction before as [|[k x] before IH]; simpl.
    + now rewrite pystr_eqb_refl.
    + destruct (pystr_eqb name k) eqn:E.
      * apply pystr_eqb_eq in E. subst k. exfalso. apply (Hfirst x). now left.
      * apply IH. intros y Hy. apply (Hfirst y). now right.
Qed.

(** X16: every insert the handler makes goes to the table
    [project.dataset.table], where [dataset] is what [BQ_DATASET] reads
    as in the environment of the process, with default
    [doc_processing], and [table] what [BQ_TABLE] reads as, with default
    [metadata].  A variable that is set is used as it stands, the empty
    string included; and the batch always holds one row. *)
Theorem inserts_go_to_the_configured_table
        (py : pylib) (svc : services) (environ : list (pystr * pystr))
        (dataset table : pystr) (envelope : pyval) (ev : event) :
  reads environ (lit "BQ_DATASET") (lit "doc_processing") dataset ->
  reads environ (lit "BQ_TABLE") (lit "metadata") table ->
  In ev (trace (index py (at_startup environ svc) envelope)) ->
  is_insert ev = true ->
  exists row,
    ev = InsertRows (project svc ++ lit "." ++ dataset ++ lit "." ++ table) [row].
Proof.
  intros Hd Ht Hin Hev.
  assert (Htid : table_id (at_startup environ svc)
                 = project svc ++ lit "." ++ dataset ++ lit "." ++ table).
  { unfold table_id, at_startup, project, BQ_DATASET, BQ_TABLE.
    now rewrite (environ_get_reads _ _ _ _ Hd), (environ_get_reads _ _ _ _ Ht). }
  destruct (index_takes_a_path py (at_startup environ svc) envelope)
    as (p & _ & Hrun).
  rewrite Hrun in Hin. clear Hrun.
  destruct p; unfold result_of, trace in Hin; cbn [fst In] in Hin;
    repeat (destruct Hin as [<- | Hin]; [try discriminate Hev|]);
    try contradiction;
    rewrite Htid; eexists; reflexivity.
Qed.

Lemma inserts_go_to_the_configured_table_witness :
  exists row,
    InsertRows (lit "demo-project.doc_processing.")
      [f1_record (utcnow_isoformat hello_services)]
    = InsertRows (project hello_services ++ lit "." ++ lit "doc_processing"
                    ++ lit "." ++ [])
        [row].
Proof.
  apply (inserts_go_to_the_configured_table (cpython silent_repr) hello_services
           [(lit "PORT", lit "8080"); (lit "BQ_TABLE", [])]
           (lit "doc_processing") [] (envelope_of f1_payload)).
  - apply reads_default. intros v [H | [H | []]]; discriminate H.
  - apply (@reads_binding _ _ _ [(lit "PORT", lit "8080")] [] []).
    + reflexivity.
    + intros v [H | []]. discriminate H.
  - vm_compute. tauto.
  - reflexivity.
Defined.
